(** * cluster-api-provider-kubevirt: the machine actuator and its client builder

    A shallow embedding of two Go files of the provider:

    - [pkg/clients/kubevirt/client.go] (package [kubevirt]): the [Client]
      interface and the constructor [New];
    - the actuator of package [vm]: [manager] with [Create], [Delete],
      [Update], [Exists] and their helpers.

    Go values are modelled as the code has them: a pointer that may be nil
    is an [option], a pair [(value, error)] is a pair of options, a
    [map[string][]byte] is a [gmap string (list byte)], a [time.Duration]
    is its number of nanoseconds in [Z].  Calls that leave the process
    (the credentials secret lookup, the VM API, the status patch) are
    appended to a list of [Call]s threaded through a small state monad
    whose outcome is either a return value or a run-time panic. *)

From Stdlib Require Import ZArith String List Lia Bool.
From Stdlib.Strings Require Import Byte.
From stdpp Require Import base gmap strings.
Import ListNotations.

Open Scope string_scope.
Open Scope list_scope.

(* ================================================================== *)
(** ** Go's standard library, as far as the two files use it *)

(** [time.Duration] counts nanoseconds in an [int64]. *)
Definition Duration := Z.
Definition time_Second : Duration := 1000000000%Z.

(** [strings.Contains(s, substr)]: [substr] occurs in [s] at some offset. *)
Fixpoint Contains (s substr : string) : bool :=
  if String.prefix substr s then true
  else match s with
       | EmptyString => false
       | String _ rest => Contains rest substr
       end.

(* ================================================================== *)
(** ** Errors *)

(** An error value made by a library the provider calls (client-go,
    kubevirt's kubecli, clientcmd).  The two files observe two things of
    such a value: the text of [Error()] and what
    [apimachineryerrors.IsNotFound] answers on it. *)
Record libError := {
  Error : string;
  IsNotFound : bool
}.

(** [machinecontroller.MachineError] carries one of these reasons. *)
Inductive MachineStatusError :=
| InvalidConfigurationMachineError
| CreateMachineError
| UpdateMachineError
| DeleteMachineError.

(** The error values that flow through the two files. *)
Inductive error :=
| LibError (e : libError)
    (* a library's error, passed on as it is *)
| WrapError (context : string) (cause : error)
    (* fmt.Errorf(context + ": %w", cause) *)
| RequeueAfterError (RequeueAfter : Duration)
    (* &machinecontroller.RequeueAfterError{RequeueAfter: d} *)
| MachineError (Reason : MachineStatusError) (Message : string).
    (* *machinecontroller.MachineError *)

(** [machinecontroller.InvalidMachineConfiguration(msg, args...)], applied
    to the formatted message. *)
Definition InvalidMachineConfiguration (msg : string) : error :=
  MachineError InvalidConfigurationMachineError msg.

Definition isInvalidConfiguration (e : error) : bool :=
  match e with
  | MachineError InvalidConfigurationMachineError _ => true
  | _ => false
  end.

(* ================================================================== *)
(** ** Remote objects and the calls that reach them *)

(** [kubevirtapiv1.VirtualMachine], the fields the actuator reads or
    writes: [ObjectMeta.Name], [ObjectMeta.Namespace],
    [ObjectMeta.ResourceVersion] and [Status.Ready]. *)
Record VirtualMachine := {
  Name : string;
  Namespace : string;
  ResourceVersion : string;
  Ready : bool
}.

Definition GetName (vm : VirtualMachine) : string := Name vm.

(** [k8smetav1.DeleteOptions]: [GracePeriodSeconds] is a [*int64]. *)
Record DeleteOptions := {
  GracePeriodSeconds : option Z
}.

(** Every call that leaves the process, with its arguments. *)
Inductive Call :=
| UserDataSecret_call (secretName namespace : string)
| NewClientConfigFromBytes_call (configBytes : list byte)
| GetKubevirtClientFromClientConfig_call
| BuildConfigFromFlags_call (masterUrl kubeconfigPath : string)
| NewForConfig_call
| CreateVirtualMachine_call (namespace : string) (newVM : VirtualMachine)
| GetVirtualMachine_call (namespace name : string)
| UpdateVirtualMachine_call (namespace : string) (vm : VirtualMachine)
| DeleteVirtualMachine_call (namespace name : string) (options : DeleteOptions)
| patchMachine_call.

(** The calls that go to the remote VM API. *)
Definition isVMAPICall (c : Call) : bool :=
  match c with
  | CreateVirtualMachine_call _ _
  | GetVirtualMachine_call _ _
  | UpdateVirtualMachine_call _ _
  | DeleteVirtualMachine_call _ _ _ => true
  | _ => false
  end.

Definition isPatchMachine (c : Call) : bool :=
  match c with
  | patchMachine_call => true
  | _ => false
  end.

(* ================================================================== *)
(** ** Effects: state passing with panics *)

(** A Go function body either returns or panics (here: dereferences nil). *)
Inductive Outcome (A : Type) :=
| Returns (a : A)
| Panics.
Arguments Returns {A} a.
Arguments Panics {A}.

Definition Eff (S A : Type) : Type := S -> Outcome A * S.

Definition ret {S A} (a : A) : Eff S A := fun s => (Returns a, s).

Definition panic {S A} : Eff S A := fun s => (Panics, s).

Definition bind {S A B} (c : Eff S A) (k : A -> Eff S B) : Eff S B :=
  fun s =>
    match c s with
    | (Returns a, s') => k a s'
    | (Panics, s') => (Panics, s')
    end.

Notation "'let!' x ':=' c 'in' k" := (bind c (fun x => k))
  (at level 10, x name, c at level 100, k at level 200).
Notation "'let!' ' pat ':=' c 'in' k" :=
  (bind c (fun x => match x with pat => k end))
  (at level 10, pat pattern, c at level 100, k at level 200).
Notation "'run!' c 'in' k" := (bind c (fun _ => k))
  (at level 10, c at level 100, k at level 200).

(** A call that leaves the process: its answer [r] is what the other side
    gives; the call is appended to the calls made so far. *)
Definition perform {A} (c : Call) (r : list Call -> A) : Eff (list Call) A :=
  fun made => (Returns (r made), made ++ [c]).

(* ================================================================== *)
(** ** Package kubevirt: pkg/clients/kubevirt/client.go *)

Module kubevirt.

(** underKubeConfig is secret key containing kubeconfig content of the
    UnderKube. *)
Definition underKubeConfig : string := "kubeconfig".

(** [corev1.Secret], the field read by [New]. *)
Record Secret := {
  Data : gmap string (list byte)
}.

(** [kubernetesclient.Client], the method [New] calls on it. *)
Record kubernetesclient_Client := {
  UserDataSecret : string -> string -> option Secret * option libError
}.

(** The interface [Client] (lines 46-59): the four methods package [vm]
    calls.  An answer may depend on the calls made before. *)
Record Client := {
  CreateVirtualMachine :
    list Call -> string -> VirtualMachine ->
    option VirtualMachine * option libError;
  DeleteVirtualMachine :
    list Call -> string -> string -> DeleteOptions -> option libError;
  GetVirtualMachine :
    list Call -> string -> string ->
    option VirtualMachine * option libError;
  UpdateVirtualMachine :
    list Call -> string -> VirtualMachine ->
    option VirtualMachine * option libError
}.

Section client.

(** The objects of clientcmd, kubecli and client-go that [New] passes from
    one constructor to the next without looking inside. *)
Context {ClientConfig KubevirtClient RestConfig Clientset : Type}.

Record Libraries := {
  NewClientConfigFromBytes : list byte -> ClientConfig * option libError;
  GetKubevirtClientFromClientConfig :
    ClientConfig -> KubevirtClient * option libError;
  BuildConfigFromFlags : string -> string -> RestConfig * option libError;
  NewForConfig : RestConfig -> Clientset * option libError
}.

Record client := {
  kubevirtClient : KubevirtClient;
  kuberentesClient : Clientset
}.

(** New creates our client wrapper object for the actual KubeVirt and
    VirtCtl clients we use.

    In the message of the missing key, the local [underKubeConfig] (the
    byte slice just read, nil here) shadows the constant, and [%v] prints
    a nil byte slice as [[]]. *)
Definition New (libs : Libraries)
    (overKubernetesClient : kubernetesclient_Client)
    (secretName namespace : string)
  : Eff (list Call) (option client * option error) :=
  if String.eqb secretName "" then
    ret (None, Some (InvalidMachineConfiguration
      "KubeVirt credentials secret - Invalid empty secretName"))
  else if String.eqb namespace "" then
    ret (None, Some (InvalidMachineConfiguration
      "KubeVirt credentials secret - Invalid empty namespace"))
  else
    let! '(userDataSecret, getSecretErr) :=
      perform (UserDataSecret_call secretName namespace)
              (fun _ => UserDataSecret overKubernetesClient
                          secretName namespace) in
    match getSecretErr with
    | Some e =>
        if IsNotFound e then
          ret (None, Some (InvalidMachineConfiguration
            ("KubeVirt credentials secret " +:+ namespace +:+ "/" +:+
             secretName +:+ ": " +:+ Error e +:+ " not found")))
        else ret (None, Some (LibError e))
    | None =>
        match userDataSecret with
        | None => panic
        | Some secret =>
            match Data secret !! underKubeConfig with
            | None =>
                ret (None, Some (InvalidMachineConfiguration
                  ("KubeVirt credentials secret " +:+ secretName +:+
                   " did not contain key []")))
            | Some underKubeConfig =>
                let! '(kubevirtConfig, err) :=
                  perform (NewClientConfigFromBytes_call underKubeConfig)
                    (fun _ => NewClientConfigFromBytes libs
                                underKubeConfig) in
                match err with
                | Some e => ret (None, Some (LibError e))
                | None =>
                let! '(kubevirtClient, getClientErr) :=
                  perform GetKubevirtClientFromClientConfig_call
                    (fun _ => GetKubevirtClientFromClientConfig libs
                                kubevirtConfig) in
                match getClientErr with
                | Some e => ret (None, Some (LibError e))
                | None =>
                let! '(kubernetesConfig, err) :=
                  perform (BuildConfigFromFlags_call ""
                             (string_of_list_byte underKubeConfig))
                    (fun _ => BuildConfigFromFlags libs ""
                                (string_of_list_byte underKubeConfig)) in
                match err with
                | Some e => ret (None, Some (LibError e))
                | None =>
                let! '(kubernetesClient, err) :=
                  perform NewForConfig_call
                    (fun _ => NewForConfig libs kubernetesConfig) in
                match err with
                | Some e => ret (None, Some (LibError e))
                | None =>
                    ret (Some {| kubevirtClient := kubevirtClient;
                                 kuberentesClient := kubernetesClient |},
                         None)
                end end end end
            end
        end
    end.

End client.

Arguments Libraries : clear implicits.
Arguments client : clear implicits.

(** The four configuration cases of [New]. *)
Definition secretNotFound (k : kubernetesclient_Client)
    (secretName namespace : string) : Prop :=
  exists s e, UserDataSecret k secretName namespace = (s, Some e)
              /\ IsNotFound e = true.

Definition secretLacksKey (k : kubernetesclient_Client)
    (secretName namespace : string) : Prop :=
  exists secret, UserDataSecret k secretName namespace = (Some secret, None)
                 /\ Data secret !! underKubeConfig = None.

End kubevirt.

(* ================================================================== *)
(** ** Package vm: the actuator *)

Module vm.

Import kubevirt.

Definition requeueAfterSeconds : Z := 20.
Definition requeueAfterFatalSeconds : Z := 180.
Definition masterLabel : string := "node-role.kubernetes.io/master".

(** [machinev1.Machine], the fields the scope's accessors read. *)
Record Machine := {
  machine_Name : string;
  machine_Namespace : string
}.

(** *** The Machine Scope

    The file that declares [machineScope] is not among the sources; the
    actuator calls its constructor and eight of its methods. *)

Inductive ConditionKind := Success | Failed.

(** Modelled from the spec: the provider condition, "a tagged outcome
    {Success, Failed(message)}"; the actuator assigns its [Message]. *)
Record Condition := {
  Kind : ConditionKind;
  Message : string
}.

(** Modelled from the spec: [conditionSuccess()], the condition Success. *)
Definition conditionSuccess : Condition :=
  {| Kind := Success; Message := "" |}.

(** Modelled from the spec: [conditionFailed()], the condition Failed
    before the actuator fills in its message. *)
Definition conditionFailed : Condition :=
  {| Kind := Failed; Message := "" |}.

Definition withMessage (c : Condition) (msg : string) : Condition :=
  {| Kind := Kind c; Message := msg |}.

(** Modelled from the spec: the Machine Scope "owns the rendered VM spec,
    the in-progress provider status, and a reference to a VM API Client":
    the status holds the provider identifier, the condition and the
    VM-derived fields. *)
Record machineScope := {
  machine : Machine;
  virtualMachine : VirtualMachine;
  kubevirtClient : Client;
  providerID : option string;
  condition : option Condition;
  vmDerived : option VirtualMachine
}.

(** Modelled from the spec: the accessors for machine name and namespace,
    "pure reads, no failure mode". *)
Definition getMachineName (s : machineScope) : string :=
  machine_Name (machine s).

Definition getMachineNamespace (s : machineScope) : string :=
  machine_Namespace (machine s).

(** Modelled from the spec: [setProviderID(vm)] "copies the remote VM's
    identifier into provider status; side-effect only, no error path".
    A VM is identified by its name within its namespace.  What the
    method does with a nil VM the spec does not say: here there is then
    no identifier to copy and the provider ID stays as it is. *)
Definition setProviderID_scope (vm : option VirtualMachine)
    (s : machineScope) : machineScope :=
  {| machine := machine s;
     virtualMachine := virtualMachine s;
     kubevirtClient := kubevirtClient s;
     providerID :=
       match vm with
       | Some v => Some (Namespace v +:+ "/" +:+ Name v)
       | None => providerID s
       end;
     condition := condition s;
     vmDerived := vmDerived s |}.

(** Modelled from the spec: [setProviderStatus(vm-or-nil, condition)]
    "overwrites the accumulated condition and, if a VM is supplied,
    updates derived status fields; if nil, clears VM-derived fields while
    retaining the condition". *)
Definition setProviderStatus_scope (vm : option VirtualMachine)
    (c : Condition) (s : machineScope) : machineScope :=
  {| machine := machine s;
     virtualMachine := virtualMachine s;
     kubevirtClient := kubevirtClient s;
     providerID := providerID s;
     condition := Some c;
     vmDerived := vm |}.

(** Line 165: [machineScope.virtualMachine.ObjectMeta.ResourceVersion = v]. *)
Definition setResourceVersion_scope (v : string)
    (s : machineScope) : machineScope :=
  {| machine := machine s;
     virtualMachine :=
       {| Name := Name (virtualMachine s);
          Namespace := Namespace (virtualMachine s);
          ResourceVersion := v;
          Ready := Ready (virtualMachine s) |};
     kubevirtClient := kubevirtClient s;
     providerID := providerID s;
     condition := condition s;
     vmDerived := vmDerived s |}.

(** manager is the struct which implement ProviderVM interface. *)
Record manager := {
  kubevirtClientBuilder :
    kubernetesclient_Client -> string -> string ->
    option Client * option error;
  kubernetesClient : kubernetesclient_Client
}.

(** The scope's constructor and the three methods of which the spec gives
    the result but not the rule: they are taken as they come.
    [patchMachine] writes to the machine resource, so its answer may
    depend on the calls made before. *)
Record scopeMethods := {
  newMachineScope :
    Machine -> kubernetesclient_Client ->
    (kubernetesclient_Client -> string -> string ->
     option Client * option error) ->
    machineScope + error;
  updateAllowed : machineScope -> bool;
  setMachineCloudProviderSpecifics :
    machineScope -> option VirtualMachine -> option error;
  patchMachine : list Call -> machineScope -> option error
}.

(** *** The state of one invocation: its scope and the calls made so far *)

Record World := {
  scope : machineScope;
  made : list Call
}.

Definition getScope : Eff World machineScope :=
  fun w => (Returns (scope w), w).

Definition modifyScope (f : machineScope -> machineScope) : Eff World unit :=
  fun w => (Returns tt, {| scope := f (scope w); made := made w |}).

Definition remote {A} (c : Call) (r : list Call -> A) : Eff World A :=
  fun w => (Returns (r (made w)), {| scope := scope w; made := made w ++ [c] |}).

Definition setProviderID (vm : option VirtualMachine) : Eff World unit :=
  modifyScope (setProviderID_scope vm).

Definition setProviderStatus (vm : option VirtualMachine) (c : Condition)
  : Eff World unit :=
  modifyScope (setProviderStatus_scope vm c).

(** What an invocation leaves behind: how it ended, the calls it made, and
    the scope as it was at exit (none if none was built). *)
Record Finished (A : Type) := {
  returned : Outcome A;
  callsMade : list Call;
  scopeAtExit : option machineScope
}.
Arguments returned {A} _.
Arguments callsMade {A} _.
Arguments scopeAtExit {A} _.

Definition failedBeforeScope {A} (a : A) : Finished A :=
  {| returned := Returns a; callsMade := []; scopeAtExit := None |}.

Definition runWith {A} (s : machineScope) (body : Eff World A) : Finished A :=
  let (r, w) := body {| scope := s; made := [] |} in
  {| returned := r; callsMade := made w; scopeAtExit := Some (scope w) |}.

(** *** Helpers of the actuator *)

Definition prepareMachineScope (sm : scopeMethods) (m : manager)
    (machine : Machine) (action : string) : machineScope + error :=
  match newMachineScope sm machine (kubernetesClient m)
          (kubevirtClientBuilder m) with
  | inr machineScopeErr => inr machineScopeErr
  | inl machineScope => inl machineScope
  end.

Definition createVM (virtualMachine : VirtualMachine)
  : Eff World (option VirtualMachine * option libError) :=
  let! machineScope := getScope in
  remote (CreateVirtualMachine_call (getMachineNamespace machineScope)
            virtualMachine)
         (fun before => CreateVirtualMachine (kubevirtClient machineScope)
            before (getMachineNamespace machineScope) virtualMachine).

Definition getVM (vmName : string)
  : Eff World (option VirtualMachine * option libError) :=
  let! machineScope := getScope in
  remote (GetVirtualMachine_call (getMachineNamespace machineScope) vmName)
         (fun before => GetVirtualMachine (kubevirtClient machineScope)
            before (getMachineNamespace machineScope) vmName).

Definition deleteVM (vmName : string) : Eff World (option libError) :=
  let gracePeriod := 10%Z in
  let options := {| GracePeriodSeconds := Some gracePeriod |} in
  let! machineScope := getScope in
  remote (DeleteVirtualMachine_call (getMachineNamespace machineScope)
            vmName options)
         (fun before => DeleteVirtualMachine (kubevirtClient machineScope)
            before (getMachineNamespace machineScope) vmName options).

Definition updateVM (updatedVM : VirtualMachine)
  : Eff World (option VirtualMachine * option libError) :=
  let! machineScope := getScope in
  remote (UpdateVirtualMachine_call (getMachineNamespace machineScope)
            updatedVM)
         (fun before => UpdateVirtualMachine (kubevirtClient machineScope)
            before (getMachineNamespace machineScope) updatedVM).

(** [vm.Status.Ready] is read through the pointer: a nil [vm] panics. *)
Definition requeueIfInstancePending {S} (vm : option VirtualMachine)
    (machineName : string) : Eff S (option error) :=
  match vm with
  | None => panic
  | Some v =>
      if negb (Ready v) then
        ret (Some (RequeueAfterError (requeueAfterSeconds * time_Second)%Z))
      else ret None
  end.

(** The deferred closure of [Create], [Delete] and [Update]: it runs when
    the body is left, by a return or by a panic, calls [patchMachine]
    and, if that fails, assigns its error to the named result [err]. *)
Definition deferPatchMachine (sm : scopeMethods)
    (body : Eff World (option error)) : Eff World (option error) :=
  fun w =>
    let (r, w1) := body w in
    let patchhMachineErr := patchMachine sm (made w1) (scope w1) in
    let w2 := {| scope := scope w1; made := made w1 ++ [patchMachine_call] |} in
    match r with
    | Panics => (Panics, w2)
    | Returns err =>
        match patchhMachineErr with
        | Some e => (Returns (Some e), w2)
        | None => (Returns err, w2)
        end
    end.

(** *** The four operations *)

(** Lines 65-84: the body of [Create] after the deferred closure is set. *)
Definition Create_body (sm : scopeMethods) : Eff World (option error) :=
  let! machineScope := getScope in
  let! '(vm, createVMErr) := createVM (virtualMachine machineScope) in
  match createVMErr with
  | Some e =>
      let conditionFailed := withMessage conditionFailed (Error e) in
      run! setProviderStatus None conditionFailed in
      ret (Some (WrapError "failed to create virtual machine" (LibError e)))
  | None =>
      run! setProviderID vm in
      let! machineScope := getScope in
      match setMachineCloudProviderSpecifics sm machineScope vm with
      | Some specificErr =>
          ret (Some (WrapError
                 "failed to set machine cloud provider specifics"
                 specificErr))
      | None =>
          run! setProviderStatus vm conditionSuccess in
          let! machineScope := getScope in
          requeueIfInstancePending vm (getMachineName machineScope)
      end
  end.

(** Create creates machine if it does not exists. *)
Definition Create (sm : scopeMethods) (m : manager) (machine : Machine)
  : Finished (option error) :=
  match prepareMachineScope sm m machine "create" with
  | inr machineScopeErr => failedBeforeScope (Some machineScopeErr)
  | inl machineScope =>
      runWith machineScope (deferPatchMachine sm (Create_body sm))
  end.

(** Lines 103-125: the body of [Delete]. *)
Definition Delete_body : Eff World (option error) :=
  let! machineScope := getScope in
  let! '(existingVM, existingVMErr) :=
    getVM (GetName (virtualMachine machineScope)) in
  match existingVMErr with
  | Some e =>
      if Contains (Error e) "not found" then ret None
      else ret (Some (LibError e))
  | None =>
      match existingVM with
      | None => ret None
      | Some _ =>
          let! machineScope := getScope in
          let! deleteVMErr :=
            deleteVM (GetName (virtualMachine machineScope)) in
          match deleteVMErr with
          | Some e =>
              ret (Some (WrapError "failed to delete VM" (LibError e)))
          | None => ret None
          end
      end
  end.

(** delete deletes machine *)
Definition Delete (sm : scopeMethods) (m : manager) (machine : Machine)
  : Finished (option error) :=
  match prepareMachineScope sm m machine "delete" with
  | inr machineScopeErr => failedBeforeScope (Some machineScopeErr)
  | inl machineScope =>
      runWith machineScope (deferPatchMachine sm Delete_body)
  end.

(** Lines 144-185: the body of [Update]. *)
Definition Update_body (sm : scopeMethods) : Eff World (option error) :=
  let! machineScope := getScope in
  let! '(existingVM, existingVMErr) :=
    getVM (GetName (virtualMachine machineScope)) in
  match existingVMErr with
  | Some e => ret (Some (LibError e))
  | None =>
      match existingVM with
      | None =>
          let! machineScope := getScope in
          if updateAllowed sm machineScope then
            ret (Some (RequeueAfterError
                         (requeueAfterSeconds * time_Second)%Z))
          else
            run! setProviderStatus None conditionSuccess in
            ret (Some (RequeueAfterError
                         (requeueAfterFatalSeconds * time_Second)%Z))
      | Some existing =>
          run! modifyScope
                 (setResourceVersion_scope (ResourceVersion existing)) in
          let! machineScope := getScope in
          let! '(updatedVM, updateVMErr) :=
            updateVM (virtualMachine machineScope) in
          match updateVMErr with
          | Some e =>
              ret (Some (WrapError "failed to update VM" (LibError e)))
          | None =>
              run! setProviderID updatedVM in
              let! machineScope := getScope in
              match setMachineCloudProviderSpecifics sm machineScope
                      updatedVM with
              | Some err =>
                  ret (Some (WrapError
                         "failed to set machine cloud provider specifics"
                         err))
              | None =>
                  run! setProviderStatus updatedVM conditionSuccess in
                  let! machineScope := getScope in
                  let! '(getUpdatedVM, getUpdatedVMErr) :=
                    getVM (GetName (virtualMachine machineScope)) in
                  let getUpdatedVM :=
                    match getUpdatedVMErr with
                    | Some _ => updatedVM
                    | None => getUpdatedVM
                    end in
                  requeueIfInstancePending getUpdatedVM
                    (getMachineName machineScope)
              end
          end
      end
  end.

(** update finds a vm and reconciles the machine resource status against
    it. *)
Definition Update (sm : scopeMethods) (m : manager) (machine : Machine)
  : Finished (option error) :=
  match prepareMachineScope sm m machine "update" with
  | inr machineScopeErr => failedBeforeScope (Some machineScopeErr)
  | inl machineScope =>
      runWith machineScope (deferPatchMachine sm (Update_body sm))
  end.

(** Lines 195-209: the body of [Exists]; no closure is deferred here. *)
Definition Exists_body : Eff World (bool * option error) :=
  let! machineScope := getScope in
  let! '(existingVM, existingVMErr) :=
    getVM (GetName (virtualMachine machineScope)) in
  match existingVMErr with
  | Some e =>
      if Contains (Error e) "not found" then ret (false, None)
      else ret (false, Some (LibError e))
  | None =>
      match existingVM with
      | None => ret (false, None)
      | Some _ => ret (true, option_map LibError existingVMErr)
      end
  end.

(** exists returns true if machine exists. *)
Definition Exists (sm : scopeMethods) (m : manager) (machine : Machine)
  : Finished (bool * option error) :=
  match prepareMachineScope sm m machine "check exists" with
  | inr machineScopeErr => failedBeforeScope (false, Some machineScopeErr)
  | inl machineScope => runWith machineScope Exists_body
  end.

(** *** What the lookup gave, seen from outside an invocation *)

(** The answer of the first [GetVirtualMachine] of an invocation: no call
    was made before it. *)
Definition firstLookup (s : machineScope)
  : option VirtualMachine * option libError :=
  GetVirtualMachine (kubevirtClient s) []
    (getMachineNamespace s) (GetName (virtualMachine s)).

(** How often [patchMachine] was called. *)
Definition patchCalls (made : list Call) : nat :=
  length (List.filter isPatchMachine made).

(** The deferred closure's effect on the named result. *)
Definition afterPatch (patchErr err : option error) : option error :=
  match patchErr with
  | Some e => Some e
  | None => err
  end.

(** *** What the collaborators answer in the course of an invocation

    The scope [s] is the one the invocation was given at its start. *)

Definition lookupCall (s : machineScope) : Call :=
  GetVirtualMachine_call (getMachineNamespace s) (GetName (virtualMachine s)).

(** [CreateVirtualMachine], the first call of [Create]. *)
Definition createAnswer (s : machineScope)
  : option VirtualMachine * option libError :=
  CreateVirtualMachine (kubevirtClient s) []
    (getMachineNamespace s) (virtualMachine s).

(** [DeleteVirtualMachine], called by [Delete] after the lookup. *)
Definition deleteAnswer (s : machineScope) (options : DeleteOptions)
  : option libError :=
  DeleteVirtualMachine (kubevirtClient s) [lookupCall s]
    (getMachineNamespace s) (GetName (virtualMachine s)) options.

(** The rendered VM after line 165 copied the version of [existing]. *)
Definition versioned (s : machineScope) (existing : VirtualMachine)
  : VirtualMachine :=
  virtualMachine (setResourceVersion_scope (ResourceVersion existing) s).

Definition updateCall (s : machineScope) (existing : VirtualMachine) : Call :=
  UpdateVirtualMachine_call (getMachineNamespace s) (versioned s existing).

(** [UpdateVirtualMachine], called by [Update] after the lookup. *)
Definition updateAnswer (s : machineScope) (existing : VirtualMachine)
  : option VirtualMachine * option libError :=
  UpdateVirtualMachine (kubevirtClient s) [lookupCall s]
    (getMachineNamespace s) (versioned s existing).

(** The second [GetVirtualMachine] of [Update] (line 180). *)
Definition refetchAnswer (s : machineScope) (existing : VirtualMachine)
  : option VirtualMachine * option libError :=
  GetVirtualMachine (kubevirtClient s) [lookupCall s; updateCall s existing]
    (getMachineNamespace s) (GetName (virtualMachine s)).

(** Lines 181-184: the VM handed to the readiness evaluation of [Update]. *)
Definition observedVM (s : machineScope) (existing : VirtualMachine)
    (updatedVM : option VirtualMachine) : option VirtualMachine :=
  match refetchAnswer s existing with
  | (_, Some _) => updatedVM
  | (getUpdatedVM, None) => getUpdatedVM
  end.

(** [setMachineCloudProviderSpecifics] as [Create] calls it (line 78). *)
Definition createSpecifics (sm : scopeMethods) (s : machineScope)
    (vm : option VirtualMachine) : option error :=
  setMachineCloudProviderSpecifics sm (setProviderID_scope vm s) vm.

(** [setMachineCloudProviderSpecifics] as [Update] calls it (line 173). *)
Definition updateSpecifics (sm : scopeMethods) (s : machineScope)
    (existing : VirtualMachine) (updatedVM : option VirtualMachine)
  : option error :=
  setMachineCloudProviderSpecifics sm
    (setProviderID_scope updatedVM
       (setResourceVersion_scope (ResourceVersion existing) s))
    updatedVM.

(** The status patch never fails. *)
Definition patchSucceeds (sm : scopeMethods) : Prop :=
  forall made s, patchMachine sm made s = None.

(** The scope was built for this invocation. *)
Definition scopeBuilt (sm : scopeMethods) (m : manager) (machine : Machine)
    (s : machineScope) : Prop :=
  newMachineScope sm machine (kubernetesClient m) (kubevirtClientBuilder m)
  = inl s.

End vm.

(* ================================================================== *)
(** ** Sample surroundings, for running the operations *)

Module Samples.

Import kubevirt vm.

Definition worker : Machine :=
  {| machine_Name := "worker-0"; machine_Namespace := "cluster-a" |}.

(** The VM spec rendered from [worker]. *)
Definition rendered : VirtualMachine :=
  {| Name := "worker-0"; Namespace := "cluster-a";
     ResourceVersion := ""; Ready := false |}.

(** The VM as the remote side has it. *)
Definition remoteVM (version : string) (ready : bool) : VirtualMachine :=
  {| Name := "worker-0"; Namespace := "cluster-a";
     ResourceVersion := version; Ready := ready |}.

Definition notFound : libError :=
  {| Error := "virtualmachine.kubevirt.io worker-0 not found";
     IsNotFound := true |}.

Definition refused : libError :=
  {| Error := "dial tcp 10.0.0.1:443: connect: connection refused";
     IsNotFound := false |}.

Definition conflict : libError :=
  {| Error := "the object has been modified";
     IsNotFound := false |}.

(** What a scripted VM API answers to each call of an invocation. *)
Record Script := {
  onCreate : option VirtualMachine * option libError;
  onLookup : option VirtualMachine * option libError;
  onUpdate : option VirtualMachine * option libError;
  onRefetch : option VirtualMachine * option libError;
  onDelete : option libError
}.

Definition scripted (sc : Script) : Client :=
  {| CreateVirtualMachine := fun _ _ _ => onCreate sc;
     DeleteVirtualMachine := fun _ _ _ _ => onDelete sc;
     GetVirtualMachine := fun before _ _ =>
       match before with
       | [] => onLookup sc
       | _ :: _ => onRefetch sc
       end;
     UpdateVirtualMachine := fun _ _ _ => onUpdate sc |}.

(** A VM API on which everything succeeds and the VM is ready. *)
Definition healthy : Script :=
  {| onCreate := (Some (remoteVM "1" true), None);
     onLookup := (Some (remoteVM "41" true), None);
     onUpdate := (Some (remoteVM "42" true), None);
     onRefetch := (Some (remoteVM "42" true), None);
     onDelete := None |}.

Definition withLookup (r : option VirtualMachine * option libError)
    (sc : Script) : Script :=
  {| onCreate := onCreate sc; onLookup := r; onUpdate := onUpdate sc;
     onRefetch := onRefetch sc; onDelete := onDelete sc |}.

Definition withCreate (r : option VirtualMachine * option libError)
    (sc : Script) : Script :=
  {| onCreate := r; onLookup := onLookup sc; onUpdate := onUpdate sc;
     onRefetch := onRefetch sc; onDelete := onDelete sc |}.

Definition withUpdate (r : option VirtualMachine * option libError)
    (sc : Script) : Script :=
  {| onCreate := onCreate sc; onLookup := onLookup sc; onUpdate := r;
     onRefetch := onRefetch sc; onDelete := onDelete sc |}.

Definition withRefetch (r : option VirtualMachine * option libError)
    (sc : Script) : Script :=
  {| onCreate := onCreate sc; onLookup := onLookup sc;
     onUpdate := onUpdate sc; onRefetch := r; onDelete := onDelete sc |}.

Definition withDelete (r : option libError) (sc : Script) : Script :=
  {| onCreate := onCreate sc; onLookup := onLookup sc;
     onUpdate := onUpdate sc; onRefetch := onRefetch sc; onDelete := r |}.

Definition scopeFor (sc : Script) : machineScope :=
  {| machine := worker;
     virtualMachine := rendered;
     kubevirtClient := scripted sc;
     providerID := None;
     condition := None;
     vmDerived := None |}.

(** Scope methods that build [scopeFor sc]; the three answers are fixed. *)
Definition methods (sc : Script) (allowed : bool)
    (specifics patch : option error) : scopeMethods :=
  {| newMachineScope := fun _ _ _ => inl (scopeFor sc);
     updateAllowed := fun _ => allowed;
     setMachineCloudProviderSpecifics := fun _ _ => specifics;
     patchMachine := fun _ _ => patch |}.

(** Scope methods whose constructor fails on the credentials. *)
Definition misconfigured : scopeMethods :=
  {| newMachineScope := fun _ _ _ =>
       inr (InvalidMachineConfiguration
              "KubeVirt credentials secret - Invalid empty secretName");
     updateAllowed := fun _ => false;
     setMachineCloudProviderSpecifics := fun _ _ => None;
     patchMachine := fun _ _ => None |}.

Definition noSecrets : kubernetesclient_Client :=
  {| UserDataSecret := fun _ _ => (None, Some notFound) |}.

Definition theManager : manager :=
  {| kubevirtClientBuilder := fun _ _ _ => (Some (scripted healthy), None);
     kubernetesClient := noSecrets |}.

(** The status patch fails with this error. *)
Definition patchFailure : error :=
  LibError {| Error := "machines.machine.openshift.io worker-0: conflict";
              IsNotFound := false |}.

(** A secret store with one secret, [cluster-a/creds], holding [data]. *)
Definition secretsWith (data : gmap string (list byte))
  : kubernetesclient_Client :=
  {| UserDataSecret := fun secretName namespace =>
       if String.eqb secretName "creds" && String.eqb namespace "cluster-a"
       then (Some {| Data := data |}, None)
       else (None, Some notFound) |}.

(** Library constructors that all succeed, on objects without content. *)
Definition plainLibraries : Libraries unit unit unit unit :=
  {| NewClientConfigFromBytes := fun _ => (tt, None);
     GetKubevirtClientFromClientConfig := fun _ => (tt, None);
     BuildConfigFromFlags := fun _ _ => (tt, None);
     NewForConfig := fun _ => (tt, None) |}.

End Samples.

(* ================================================================== *)
(** ** Package vm: the query helpers *)

Module vm_queries.

(** getRunningFromVms returns all running vms from a list of vms.

    The loop appends to [runningVms], from the front of [vms] on;
    [vm.Status.Ready] is read through the pointer, so a nil element
    panics when the loop reaches it. *)
Fixpoint getRunningFromVms_loop
    (runningVms vms : list (option VirtualMachine))
  : Outcome (list (option VirtualMachine)) :=
  match vms with
  | [] => Returns runningVms
  | None :: _ => Panics
  | Some vm :: rest =>
      getRunningFromVms_loop
        (if Ready vm then runningVms ++ [Some vm] else runningVms) rest
  end.

Definition getRunningFromVms (vms : list (option VirtualMachine))
  : Outcome (list (option VirtualMachine)) :=
  getRunningFromVms_loop [] vms.

(** Whether the VM behind a pointer is ready; a nil pointer is not. *)
Definition isRunning (vm : option VirtualMachine) : bool :=
  match vm with
  | Some v => Ready v
  | None => false
  end.

End vm_queries.

(* ================================================================== *)
(** ** Kinds of calls on the VM API *)

Module calls.

Definition isCreateCall (c : Call) : bool :=
  match c with
  | CreateVirtualMachine_call _ _ => true
  | _ => false
  end.

Definition isGetCall (c : Call) : bool :=
  match c with
  | GetVirtualMachine_call _ _ => true
  | _ => false
  end.

Definition isUpdateCall (c : Call) : bool :=
  match c with
  | UpdateVirtualMachine_call _ _ => true
  | _ => false
  end.

Definition isDeleteCall (c : Call) : bool :=
  match c with
  | DeleteVirtualMachine_call _ _ _ => true
  | _ => false
  end.

End calls.

(* ================================================================== *)
(** ** Package kubevirt: the service methods of the client wrapper *)

Module services.

Import kubevirt.

Definition servicePrefixName : string := "worker-".

(** [fmt.Sprint(a, b)] on two strings: a space is added between operands
    only when neither is a string, so the two are joined as they are. *)
Definition Sprint (a b : string) : string := a +:+ b.

(** [corev1.ServiceSpec] and [corev1.Service], the fields
    [CreateService] sets; every other field keeps its zero value. *)
Record ServiceSpec := {
  ClusterIP : string;
  Selector : gmap string string
}.

Record Service := {
  Service_Name : string;
  Spec : ServiceSpec
}.

(** The calls on [CoreV1().Services(namespace)]. *)
Inductive ServiceCall :=
| Services_Create_call (namespace : string) (service : Service)
| Services_Delete_call (namespace name : string)
    (options : option DeleteOptions).

(** [*kubernetes.Clientset], the two calls the wrapper makes on
    [CoreV1().Services(namespace)].  An answer may depend on the calls
    made before. *)
Record Clientset := {
  Services_Create :
    list ServiceCall -> string -> Service ->
    option Service * option libError;
  Services_Delete :
    list ServiceCall -> string -> string -> option DeleteOptions ->
    option libError
}.

Definition CreateService {KubevirtClient : Type}
    (c : client KubevirtClient Clientset) (vmName namespace : string)
  : Eff (list ServiceCall) (option Service * option libError) :=
  let service :=
    {| Service_Name := Sprint servicePrefixName vmName;
       Spec := {| ClusterIP := "";
                  Selector := {[ "name" := "worker-" +:+ vmName ]} |} |} in
  fun made =>
    (Returns (Services_Create (kuberentesClient c) made namespace service),
     made ++ [Services_Create_call namespace service]).

Definition DeleteService {KubevirtClient : Type}
    (c : client KubevirtClient Clientset) (vmName namespace : string)
    (options : option DeleteOptions)
  : Eff (list ServiceCall) (option libError) :=
  fun made =>
    (Returns (Services_Delete (kuberentesClient c) made namespace
                (Sprint servicePrefixName vmName) options),
     made ++ [Services_Delete_call namespace
                (Sprint servicePrefixName vmName) options]).

(** A wrapper over a service API on which every call succeeds. *)
Definition obliging : client unit Clientset :=
  {| kubevirtClient := tt;
     kuberentesClient :=
       {| Services_Create := fun _ _ service => (Some service, None);
          Services_Delete := fun _ _ _ _ => None |} |}.

End services.

(* ================================================================== *)
(** * Properties *)

Import kubevirt vm.

(** ** [strings.Contains] finds exactly the substrings *)

Lemma prefix_split (p s : string) :
  String.prefix p s = true <-> exists rest, s = p +:+ rest.
Proof.
  revert s. induction p as [|a p IH]; intros s.
  - split; [intros _; exists s; reflexivity | destruct s; reflexivity].
  - destruct s as [|b s]; simpl.
    + split; [discriminate | intros [rest H]; discriminate].
    + destruct (Ascii.ascii_dec a b) as [->|Hne].
      * rewrite IH. split; intros [rest H]; exists rest.
        -- now rewrite H.
        -- now injection H.
      * split; [discriminate | intros [rest H]; injection H; congruence].
Qed.

Lemma Contains_unfold (s sub : string) :
  Contains s sub =
  if String.prefix sub s then true
  else match s with
       | EmptyString => false
       | String _ rest => Contains rest sub
       end.
Proof. destruct s; reflexivity. Qed.

Lemma Contains_spec (s sub : string) :
  Contains s sub = true <-> exists before after, s = before +:+ sub +:+ after.
Proof.
  induction s as [|a s IH]; rewrite Contains_unfold;
    destruct (String.prefix sub _) eqn:P.
  - split; [intros _|reflexivity].
    apply prefix_split in P as [rest P]. exists "", rest. exact P.
  - split; [discriminate|]. intros [[|b before] [after H]]; simpl in H.
    + assert (String.prefix sub "" = true)
        by (apply prefix_split; exists after; exact H).
      congruence.
    + discriminate.
  - split; [intros _|reflexivity].
    apply prefix_split in P as [rest P]. exists "", rest. exact P.
  - rewrite IH. split.
    + intros (before & after & ->). exists (String a before), after.
      reflexivity.
    + intros ([|b before] & after & H); simpl in H.
      * assert (String.prefix sub (String a s) = true)
          by (apply prefix_split; exists after; exact H).
        congruence.
      * injection H as -> ->. exists before, after. reflexivity.
Qed.

(** ** Tactics for running an operation symbolically *)

Ltac unfold_operations :=
  unfold Create, Delete, Update, Exists, prepareMachineScope, runWith,
    failedBeforeScope, deferPatchMachine, Create_body, Delete_body,
    Update_body, Exists_body, createVM, getVM, deleteVM, updateVM,
    requeueIfInstancePending, setProviderID, setProviderStatus,
    modifyScope, getScope, remote, bind, ret, panic in *.

Ltac case_answer :=
  match goal with
  | |- context [CreateVirtualMachine ?c ?b ?n ?v] =>
      destruct (CreateVirtualMachine c b n v) as [? [?|]] eqn:?
  | |- context [GetVirtualMachine ?c ?b ?n ?v] =>
      destruct (GetVirtualMachine c b n v) as [? [?|]] eqn:?
  | |- context [UpdateVirtualMachine ?c ?b ?n ?v] =>
      destruct (UpdateVirtualMachine c b n v) as [? [?|]] eqn:?
  | |- context [DeleteVirtualMachine ?c ?b ?n ?v ?o] =>
      destruct (DeleteVirtualMachine c b n v o) eqn:?
  | |- context [setMachineCloudProviderSpecifics ?sm ?s ?v] =>
      destruct (setMachineCloudProviderSpecifics sm s v) eqn:?
  | |- context [patchMachine ?sm ?l ?s] =>
      destruct (patchMachine sm l s) eqn:?
  | |- context [updateAllowed ?sm ?s] =>
      destruct (updateAllowed sm s) eqn:?
  | |- context [Contains ?a ?b] => destruct (Contains a b) eqn:?
  | |- context [negb (Ready ?v)] => destruct (Ready v) eqn:?
  | |- context [match ?x with _ => _ end] => is_var x; destruct x
  | |- context [if ?x then _ else _] => is_var x; destruct x
  end.

Ltac run_cases := unfold_operations; cbn; repeat (case_answer; cbn).

(** ** The status patch is called once *)

Lemma patchCalls_snoc (made : list Call) (c : Call) :
  patchCalls (made ++ [c]) =
  patchCalls made + (if isPatchMachine c then 1 else 0).
Proof.
  unfold patchCalls. rewrite List.filter_app, List.length_app. cbn.
  destruct (isPatchMachine c); reflexivity.
Qed.

Ltac count_patchCalls :=
  unfold patchCalls; rewrite ?List.filter_app, ?List.length_app; cbn; lia.

Lemma Create_body_patchCalls (sm : scopeMethods) (w : World) :
  patchCalls (made (snd (Create_body sm w))) = patchCalls (made w).
Proof.
  run_cases; fold (patchCalls (made w)); count_patchCalls.
Qed.

Lemma Delete_body_patchCalls (w : World) :
  patchCalls (made (snd (Delete_body w))) = patchCalls (made w).
Proof.
  run_cases; fold (patchCalls (made w)); count_patchCalls.
Qed.

Lemma Update_body_patchCalls (sm : scopeMethods) (w : World) :
  patchCalls (made (snd (Update_body sm w))) = patchCalls (made w).
Proof.
  run_cases; fold (patchCalls (made w)); count_patchCalls.
Qed.

Lemma deferPatchMachine_patchCalls (sm : scopeMethods)
    (body : Eff World (option error)) (w : World) :
  patchCalls (made (snd (deferPatchMachine sm body w))) =
  S (patchCalls (made (snd (body w)))).
Proof.
  unfold deferPatchMachine. destruct (body w) as [[err|] w1];
    [destruct (patchMachine sm _ _)| ];
    cbn [snd made]; rewrite patchCalls_snoc; cbn; lia.
Qed.

Lemma runWith_callsMade {A} (s : machineScope) (body : Eff World A) :
  callsMade (runWith s body) = made (snd (body {| scope := s; made := [] |})).
Proof. unfold runWith. destruct (body _); reflexivity. Qed.

(** C1. On every invocation of [Create], [Delete] and [Update],
    [patchMachine] is called exactly once when the Machine Scope was
    built, however the body is left (a nil result, an error, a requeue
    signal, or a panic), and not at all when building the scope failed. *)
Theorem patchMachine_called_exactly_once
    (sm : scopeMethods) (m : manager) (machine : Machine) :
  let expected :=
    match newMachineScope sm machine (kubernetesClient m)
            (kubevirtClientBuilder m) with
    | inl _ => 1
    | inr _ => 0
    end in
  patchCalls (callsMade (Create sm m machine)) = expected
  /\ patchCalls (callsMade (Delete sm m machine)) = expected
  /\ patchCalls (callsMade (Update sm m machine)) = expected.
Proof.
  unfold Create, Delete, Update, prepareMachineScope.
  destruct (newMachineScope sm machine _ _) as [s|e]; cbn.
  - rewrite !runWith_callsMade, !deferPatchMachine_patchCalls.
    rewrite Create_body_patchCalls, Delete_body_patchCalls,
      Update_body_patchCalls.
    repeat split; reflexivity.
  - repeat split; reflexivity.
Qed.

(** ** Invocations whose scope was built *)

Ltac enter_operation built :=
  unfold scopeBuilt, patchSucceeds, observedVM, createSpecifics,
    updateSpecifics, firstLookup, createAnswer, deleteAnswer, updateAnswer,
    refetchAnswer, updateCall, versioned, lookupCall in *;
  unfold_operations; rewrite built;
  unfold getMachineNamespace, getMachineName, GetName, setProviderID_scope,
    setProviderStatus_scope, setResourceVersion_scope in *;
  cbn in *.

Ltac use_answers :=
  repeat match goal with
         | H : ?l = _ |- context [?l] => rewrite H; cbn
         end.

Section Invocation.

Variables (sm : scopeMethods) (m : manager) (machine : Machine).
Variable s : machineScope.
Hypothesis built : scopeBuilt sm m machine s.

(** The world in which the body of an operation starts. *)
Let start : World := {| scope := s; made := [] |}.

(** C2, as the code has it.  When the body of [Create], [Delete] or
    [Update] returns [err] (nil, an error of createVM, updateVM or
    deleteVM, or a requeue signal), the operation returns the error of
    [patchMachine] if that call failed, whatever [err] was, and returns
    [err] only if [patchMachine] succeeded: the last error wins. *)
Theorem patch_error_replaces_result :
  (forall err w1, Create_body sm start = (Returns err, w1) ->
     returned (Create sm m machine) =
     Returns match patchMachine sm (made w1) (scope w1) with
             | Some patchErr => Some patchErr
             | None => err
             end)
  /\ (forall err w1, Delete_body start = (Returns err, w1) ->
     returned (Delete sm m machine) =
     Returns match patchMachine sm (made w1) (scope w1) with
             | Some patchErr => Some patchErr
             | None => err
             end)
  /\ (forall err w1, Update_body sm start = (Returns err, w1) ->
     returned (Update sm m machine) =
     Returns match patchMachine sm (made w1) (scope w1) with
             | Some patchErr => Some patchErr
             | None => err
             end).
Proof.
  unfold Create, Delete, Update, prepareMachineScope.
  unfold scopeBuilt in built. rewrite built.
  unfold runWith, deferPatchMachine. fold start.
  repeat split; intros err w1 ->;
    destruct (patchMachine sm (made w1) (scope w1)); reflexivity.
Qed.

Lemma Exists_cases :
  (forall v e, firstLookup s = (v, Some e) ->
     Contains (Error e) "not found" = true ->
     returned (Exists sm m machine) = Returns (false, None))
  /\ (forall v e, firstLookup s = (v, Some e) ->
     Contains (Error e) "not found" = false ->
     returned (Exists sm m machine) = Returns (false, Some (LibError e)))
  /\ (firstLookup s = (None, None) ->
     returned (Exists sm m machine) = Returns (false, None))
  /\ (forall v, firstLookup s = (Some v, None) ->
     returned (Exists sm m machine) = Returns (true, None)).
Proof.
  repeat split; intros; enter_operation built; use_answers; reflexivity.
Qed.

(** C7. When the lookup of [Update] finds a VM, the rendered VM spec
    handed to the client's update call is the scope's spec with the
    version of the VM found: the update is the call right after the
    lookup, and no update call of the invocation carries another
    version. *)
Theorem Update_carries_ResourceVersion (existing : VirtualMachine) :
  firstLookup s = (Some existing, None) ->
  versioned s existing =
    {| Name := Name (virtualMachine s);
       Namespace := Namespace (virtualMachine s);
       ResourceVersion := ResourceVersion existing;
       Ready := Ready (virtualMachine s) |}
  /\ (exists rest,
        callsMade (Update sm m machine) =
        GetVirtualMachine_call (getMachineNamespace s)
          (GetName (virtualMachine s))
        :: UpdateVirtualMachine_call (getMachineNamespace s)
             (versioned s existing)
        :: rest)
  /\ (forall namespace vm,
        In (UpdateVirtualMachine_call namespace vm)
           (callsMade (Update sm m machine)) ->
        ResourceVersion vm = ResourceVersion existing).
Proof.
  intros L. split; [reflexivity|].
  enter_operation built. rewrite L. cbn.
  split.
  - repeat (case_answer; cbn); eexists; reflexivity.
  - intros namespace vm.
    repeat (case_answer; cbn); intros H;
      repeat (destruct H as [H|H]; try discriminate H; try contradiction);
      injection H as _ <-; reflexivity.
Qed.


(** *** What the four operations return, the status patch included

    [Create], [Delete] and [Update] return what their body returned when
    [patchMachine] succeeds, and the error of [patchMachine] when it
    fails; [patchMachine] is called with the calls made before it and
    the scope as the body left it. *)

(** C4, as the code has it.  [Delete] returns nil when the lookup fails
    with an error whose text contains "not found", and when the lookup
    gives a nil VM and no error; in both cases no delete is issued.  Any
    other lookup error is returned as it is.  When a VM is found,
    [Delete] issues the client's delete for the VM's name with a grace
    period of 10, and returns nil if that succeeds and the delete error
    wrapped with "failed to delete VM" if it fails.  All this when the
    deferred [patchMachine] succeeds; when it fails, [Delete] returns the
    error of [patchMachine] instead. *)
Theorem Delete_is_idempotent_to_absence :
  let ten := {| GracePeriodSeconds := Some 10%Z |} in
  let deleteCall :=
    DeleteVirtualMachine_call (getMachineNamespace s)
      (GetName (virtualMachine s)) ten in
  let thenPatch (calls : list Call) (err : option error) :=
    Returns match patchMachine sm calls s with
            | Some patchErr => Some patchErr
            | None => err
            end in
  (forall v e, firstLookup s = (v, Some e) ->
     Contains (Error e) "not found" = true ->
     returned (Delete sm m machine) = thenPatch [lookupCall s] None
     /\ callsMade (Delete sm m machine) = [lookupCall s; patchMachine_call])
  /\ (firstLookup s = (None, None) ->
     returned (Delete sm m machine) = thenPatch [lookupCall s] None
     /\ callsMade (Delete sm m machine) = [lookupCall s; patchMachine_call])
  /\ (forall v e, firstLookup s = (v, Some e) ->
     Contains (Error e) "not found" = false ->
     returned (Delete sm m machine)
     = thenPatch [lookupCall s] (Some (LibError e)))
  /\ (forall v, firstLookup s = (Some v, None) ->
     callsMade (Delete sm m machine)
     = [lookupCall s; deleteCall; patchMachine_call]
     /\ returned (Delete sm m machine)
        = thenPatch [lookupCall s; deleteCall]
            match deleteAnswer s ten with
            | None => None
            | Some e => Some (WrapError "failed to delete VM" (LibError e))
            end).
Proof.
  cbn zeta. repeat split; intros; enter_operation built; use_answers;
    repeat (case_answer; cbn); reflexivity.
Qed.

(** C5, as the code has it.  The readiness rule:
    [requeueIfInstancePending] on a VM returns a requeue-after signal of
    20 seconds when the VM is not ready and nil when it is.  [Create],
    after a create that returned a VM and after setting the provider
    specifics, returns that for the created VM; [Update], after an update
    that returned a VM and after setting the provider specifics, returns
    that for the VM it observed (re-fetched, or else the updated one).
    All this when the deferred [patchMachine] succeeds; when it fails,
    they return the error of [patchMachine] instead. *)
Theorem readiness_rule :
  let rule (v : VirtualMachine) : option error :=
    if Ready v then None
    else Some (RequeueAfterError (20 * time_Second)%Z) in
  (forall v machineName (w : World),
     requeueIfInstancePending (Some v) machineName w = (Returns (rule v), w))
  /\ (forall v, createAnswer s = (Some v, None) ->
     createSpecifics sm s (Some v) = None ->
     returned (Create sm m machine)
     = Returns
         match patchMachine sm
                 [CreateVirtualMachine_call (getMachineNamespace s)
                    (virtualMachine s)]
                 (setProviderStatus_scope (Some v) conditionSuccess
                    (setProviderID_scope (Some v) s)) with
         | Some patchErr => Some patchErr
         | None => rule v
         end)
  /\ (forall existing updated v,
     firstLookup s = (Some existing, None) ->
     updateAnswer s existing = (Some updated, None) ->
     updateSpecifics sm s existing (Some updated) = None ->
     observedVM s existing (Some updated) = Some v ->
     returned (Update sm m machine)
     = Returns
         match patchMachine sm
                 [lookupCall s; updateCall s existing; lookupCall s]
                 (setProviderStatus_scope (Some updated) conditionSuccess
                    (setProviderID_scope (Some updated)
                       (setResourceVersion_scope
                          (ResourceVersion existing) s))) with
         | Some patchErr => Some patchErr
         | None => rule v
         end).
Proof.
  cbn zeta. split; [|split].
  - intros v machineName w. unfold requeueIfInstancePending.
    destruct (Ready v); reflexivity.
  - intros v HA HS. enter_operation built. rewrite HA. cbn. rewrite HS. cbn.
    destruct (Ready v); cbn; case_answer; reflexivity.
  - intros existing updated v HL HU HS HO. enter_operation built.
    rewrite HL. cbn. rewrite HU. cbn. rewrite HS. cbn.
    destruct (GetVirtualMachine _ [_; _] _ _) as [g [ge|]]; cbn in *;
      try (injection HO as ->); subst; destruct (Ready v); cbn;
      case_answer; reflexivity.
Qed.

(** C6, as the code has it.  [Update] whose lookup gives a nil VM and no
    error: when the update-allowed predicate holds, it leaves the scope
    (condition and status) as it was and returns a requeue-after signal
    of 20 seconds; otherwise it sets the provider status with no VM and
    the condition Success, and returns a requeue-after signal of 180
    seconds.  The signal is returned when the deferred [patchMachine]
    succeeds; when it fails, [Update] returns the error of
    [patchMachine] instead. *)
Theorem Update_on_absent_VM :
  firstLookup s = (None, None) ->
  (updateAllowed sm s = true ->
     scopeAtExit (Update sm m machine) = Some s
     /\ returned (Update sm m machine)
        = Returns
            match patchMachine sm [lookupCall s] s with
            | Some patchErr => Some patchErr
            | None => Some (RequeueAfterError (20 * time_Second)%Z)
            end)
  /\ (updateAllowed sm s = false ->
     scopeAtExit (Update sm m machine)
     = Some (setProviderStatus_scope None conditionSuccess s)
     /\ returned (Update sm m machine)
        = Returns
            match patchMachine sm [lookupCall s]
                    (setProviderStatus_scope None conditionSuccess s) with
            | Some patchErr => Some patchErr
            | None => Some (RequeueAfterError (180 * time_Second)%Z)
            end).
Proof.
  intros HL. split; intros HA; enter_operation built; use_answers;
    repeat (case_answer; cbn); split; reflexivity.
Qed.

(** C9, as the code has it.  [Delete] and [Exists] take a lookup error
    for "the VM is absent" exactly when the error's text contains the
    substring "not found": [Exists] then returns [(false, nil)], and
    [Delete] returns nil when the deferred [patchMachine] succeeds.
    [Update] does not look at the text: it makes no further call on the
    VM API, leaves the scope untouched, and returns the lookup error as
    it is when [patchMachine] succeeds.  When [patchMachine] fails,
    [Delete] and [Update] return its error instead, whatever the text. *)
Theorem not_found_is_matched_by_text (v : option VirtualMachine)
    (e : libError) :
  firstLookup s = (v, Some e) ->
  let textSaysNotFound :=
    exists before after, Error e = before +:+ "not found" +:+ after in
  (patchMachine sm [lookupCall s] s = None ->
     (returned (Delete sm m machine) = Returns None <-> textSaysNotFound)
     /\ returned (Update sm m machine) = Returns (Some (LibError e)))
  /\ (forall patchErr, patchMachine sm [lookupCall s] s = Some patchErr ->
     returned (Delete sm m machine) = Returns (Some patchErr)
     /\ returned (Update sm m machine) = Returns (Some patchErr))
  /\ (returned (Exists sm m machine) = Returns (false, None)
      <-> textSaysNotFound)
  /\ callsMade (Update sm m machine) = [lookupCall s; patchMachine_call]
  /\ scopeAtExit (Update sm m machine) = Some s.
Proof.
  intros HL. cbn zeta. rewrite <- Contains_spec.
  enter_operation built. rewrite HL. cbn.
  destruct (Contains (Error e) "not found"); cbn.
  all: split; [intros HP; rewrite HP; cbn; split; [split|]; congruence|].
  all: split; [intros patchErr HP; rewrite HP; cbn; split; reflexivity|].
  all: split; [split; congruence|].
  all: case_answer; split; reflexivity.
Qed.

End Invocation.

(** C3. When the scope was built, [Exists] returns [(false, nil)] when
    the lookup fails with an error whose text contains "not found",
    [(false, err)] for any other lookup error [err], [(false, nil)] when
    the lookup gives a nil VM and no error, and [(true, nil)] otherwise.
    It returns [true] only after a lookup that gave a VM and no error. *)
Theorem Exists_by_lookup
    (sm : scopeMethods) (m : manager) (machine : Machine) :
  (forall s, scopeBuilt sm m machine s ->
     (forall v e, firstLookup s = (v, Some e) ->
        Contains (Error e) "not found" = true ->
        returned (Exists sm m machine) = Returns (false, None))
     /\ (forall v e, firstLookup s = (v, Some e) ->
        Contains (Error e) "not found" = false ->
        returned (Exists sm m machine) = Returns (false, Some (LibError e)))
     /\ (firstLookup s = (None, None) ->
        returned (Exists sm m machine) = Returns (false, None))
     /\ (forall v, firstLookup s = (Some v, None) ->
        returned (Exists sm m machine) = Returns (true, None)))
  /\ (forall err, returned (Exists sm m machine) = Returns (true, err) ->
      exists s v, scopeBuilt sm m machine s
                  /\ firstLookup s = (Some v, None) /\ err = None).
Proof.
  split.
  - intros s built. exact (Exists_cases sm m machine s built).
  - intros err. unfold scopeBuilt, Exists, prepareMachineScope.
    destruct (newMachineScope sm machine _ _) as [s|scopeErr] eqn:built;
      [|discriminate].
    unfold firstLookup. unfold_operations. cbn.
    destruct (GetVirtualMachine _ _ _ _) as [[v|] [e|]] eqn:L; cbn;
      try destruct (Contains _ _); cbn; intros H; try discriminate H.
    injection H as <-. exists s, v. repeat split; assumption || reflexivity.
Qed.

(** ** The client builder *)

(** C8. [New] returns no client and an InvalidConfiguration error in
    exactly four cases: the secret name is empty, the namespace is empty,
    the secret is not found, or the secret has no "kubeconfig" key.
    Whenever it returns such an error, it has made no call but at most
    the lookup of the secret: no client was built and the VM API was not
    called. *)
Theorem New_InvalidConfiguration_cases
    {ClientConfig KubevirtClient RestConfig Clientset : Type}
    (libs : Libraries ClientConfig KubevirtClient RestConfig Clientset)
    (k : kubernetesclient_Client) (secretName namespace : string)
    (before : list Call) :
  let result := New libs k secretName namespace before in
  ((secretName = "" \/ namespace = ""
    \/ secretNotFound k secretName namespace
    \/ secretLacksKey k secretName namespace)
   <-> exists msg,
         fst result = Returns (None, Some (InvalidMachineConfiguration msg)))
  /\ (forall c e,
        fst result = Returns (c, Some e) ->
        isInvalidConfiguration e = true ->
        c = None
        /\ exists calls,
             snd result = before ++ calls
             /\ (calls = []
                 \/ calls = [UserDataSecret_call secretName namespace])
             /\ Forall (fun call => isVMAPICall call = false) calls).
Proof.
  cbn zeta. unfold New, secretNotFound, secretLacksKey, perform, bind, ret,
    panic.
  destruct (String.eqb secretName "") eqn:E1; cbn.
  { apply String.eqb_eq in E1. split.
    - split; [eexists; reflexivity | auto].
    - intros c e [= <- <-] _. split; [reflexivity|].
      exists []. rewrite app_nil_r. auto. }
  apply String.eqb_neq in E1.
  destruct (String.eqb namespace "") eqn:E2; cbn.
  { apply String.eqb_eq in E2. split.
    - split; [eexists; reflexivity | auto].
    - intros c e [= <- <-] _. split; [reflexivity|].
      exists []. rewrite app_nil_r. auto. }
  apply String.eqb_neq in E2.
  destruct (UserDataSecret k secretName namespace)
    as [userDataSecret [getSecretErr|]] eqn:EU; cbn.
  { destruct (IsNotFound getSecretErr) eqn:EN; cbn; split.
    - split; [eexists; reflexivity|]. intros _. right. right. left.
      exists userDataSecret, getSecretErr. auto.
    - intros c e [= <- <-] _. split; [reflexivity|].
      eexists. split; [reflexivity|]. split; [auto|].
      repeat constructor.
    - split; [|intros [msg H]; discriminate H].
      intros [H|[H|[(s0 & e0 & H & HN)|(s0 & H & _)]]];
        try contradiction; congruence.
    - intros c e [= <- <-] H. discriminate H. }
  destruct userDataSecret as [secret|]; cbn.
  2:{ split.
      - split; [|intros [msg H]; discriminate H].
        intros [H|[H|[(s0 & e0 & H & HN)|(s0 & H & _)]]];
          try contradiction; congruence.
      - intros c e H. discriminate H. }
  destruct (Data secret !! underKubeConfig) as [bytes|] eqn:EK; cbn.
  2:{ split.
      - split; [eexists; reflexivity|]. intros _. right. right. right.
        exists secret. auto.
      - intros c e [= <- <-] _. split; [reflexivity|].
        eexists. split; [reflexivity|]. split; [auto|].
        repeat constructor. }
  assert (Hno : ~ (secretName = "" \/ namespace = ""
                   \/ (exists s0 e0,
                         (Some secret, @None libError) = (s0, Some e0)
                         /\ IsNotFound e0 = true)
                   \/ (exists secret0,
                         (Some secret, @None libError) = (Some secret0, None)
                         /\ Data secret0 !! underKubeConfig = None))).
  { intros [H|[H|[(s0 & e0 & H & HN)|(s0 & H & HK)]]];
      try contradiction; try discriminate H.
    injection H as <-. congruence. }
  destruct (NewClientConfigFromBytes libs bytes) as [cfg [e1|]]; cbn.
  { split; [split; [tauto | intros [msg H]; discriminate H]|].
    intros c e [= <- <-] H. discriminate H. }
  destruct (GetKubevirtClientFromClientConfig libs cfg) as [kc [e2|]]; cbn.
  { split; [split; [tauto | intros [msg H]; discriminate H]|].
    intros c e [= <- <-] H. discriminate H. }
  destruct (BuildConfigFromFlags libs _ _) as [rc [e3|]]; cbn.
  { split; [split; [tauto | intros [msg H]; discriminate H]|].
    intros c e [= <- <-] H. discriminate H. }
  destruct (NewForConfig libs rc) as [cs [e4|]]; cbn.
  { split; [split; [tauto | intros [msg H]; discriminate H]|].
    intros c e [= <- <-] H. discriminate H. }
  split; [split; [tauto | intros [msg H]; discriminate H]|].
  intros c e H. discriminate H.
Qed.

(* ================================================================== *)
(** * The operations run on the sample surroundings *)

Import Samples.

(** The patch is called once on a failing create, and never when the
    credentials are missing. *)
Example patchMachine_calls_on_samples :
  callsMade (Create (methods (withCreate (None, Some refused) healthy)
                       false None None) theManager worker)
  = [CreateVirtualMachine_call "cluster-a" rendered; patchMachine_call]
  /\ callsMade (Create misconfigured theManager worker) = [].
Proof. split; reflexivity. Qed.

(** C2, the first error does not win: [createVM] fails, so the body of
    [Create] returns the wrapped create error; [patchMachine] fails too,
    and [Create] returns the patch error in place of the create error. *)
Lemma patch_error_masks_create_error :
  let sm := methods (withCreate (None, Some refused) healthy)
              false None (Some patchFailure) in
  let createErr :=
    WrapError "failed to create virtual machine" (LibError refused) in
  createAnswer (scopeFor (withCreate (None, Some refused) healthy))
    = (None, Some refused)
  /\ fst (Create_body sm {| scope := scopeFor
                              (withCreate (None, Some refused) healthy);
                            made := [] |})
     = Returns (Some createErr)
  /\ returned (Create sm theManager worker) = Returns (Some patchFailure)
  /\ patchFailure <> createErr.
Proof.
  cbn zeta. repeat split; try reflexivity. discriminate.
Qed.

Lemma patch_error_replaces_result_witness :
  let script := withDelete (Some refused) healthy in
  let sm := methods script false None (Some patchFailure) in
  scopeBuilt sm theManager worker (scopeFor script)
  /\ fst (Delete_body {| scope := scopeFor script; made := [] |})
     = Returns (Some (WrapError "failed to delete VM" (LibError refused)))
  /\ returned (Delete sm theManager worker) = Returns (Some patchFailure).
Proof.
  cbn zeta. split; [reflexivity|]. split; [reflexivity|].
  exact (proj1 (proj2
           (patch_error_replaces_result
              (methods (withDelete (Some refused) healthy) false None
                 (Some patchFailure))
              theManager worker
              (scopeFor (withDelete (Some refused) healthy)) eq_refl))
           _ _ eq_refl).
Defined.

Lemma Exists_by_lookup_witness :
  let script := withLookup (None, Some notFound) healthy in
  let sm := methods script false None None in
  scopeBuilt sm theManager worker (scopeFor script)
  /\ firstLookup (scopeFor script) = (None, Some notFound)
  /\ Contains (Error notFound) "not found" = true
  /\ returned (Exists sm theManager worker) = Returns (false, None).
Proof.
  cbn zeta. split; [reflexivity|]. split; [reflexivity|].
  split; [reflexivity|].
  exact (proj1 (proj1 (Exists_by_lookup
                         (methods (withLookup (None, Some notFound) healthy)
                            false None None) theManager worker)
                  (scopeFor (withLookup (None, Some notFound) healthy))
                  eq_refl)
           None notFound eq_refl eq_refl).
Defined.

(** C4, a failing patch: the lookup says "not found", yet [Delete]
    returns the error of [patchMachine], not nil. *)
Lemma Delete_on_absent_VM_returns_patch_error :
  let script := withLookup (None, Some notFound) healthy in
  let sm := methods script false None (Some patchFailure) in
  firstLookup (scopeFor script) = (None, Some notFound)
  /\ Contains (Error notFound) "not found" = true
  /\ returned (Delete sm theManager worker) = Returns (Some patchFailure)
  /\ returned (Delete sm theManager worker) <> Returns None.
Proof. cbn zeta. repeat split; try reflexivity. discriminate. Qed.

Lemma Delete_is_idempotent_to_absence_witness :
  let script := withLookup (None, Some notFound) healthy in
  let sm := methods script false None None in
  scopeBuilt sm theManager worker (scopeFor script)
  /\ firstLookup (scopeFor script) = (None, Some notFound)
  /\ Contains (Error notFound) "not found" = true
  /\ returned (Delete sm theManager worker) = Returns None
  /\ callsMade (Delete sm theManager worker)
     = [GetVirtualMachine_call "cluster-a" "worker-0"; patchMachine_call].
Proof.
  cbn zeta. split; [reflexivity|].
  split; [reflexivity|]. split; [reflexivity|].
  exact (proj1 (Delete_is_idempotent_to_absence
                  (methods (withLookup (None, Some notFound) healthy)
                     false None None) theManager worker
                  (scopeFor (withLookup (None, Some notFound) healthy))
                  eq_refl)
           None notFound eq_refl eq_refl).
Defined.

(** C5, a failing patch: the created VM is ready, yet [Create] returns
    the error of [patchMachine], not nil. *)
Lemma Create_of_ready_VM_returns_patch_error :
  let sm := methods healthy false None (Some patchFailure) in
  createAnswer (scopeFor healthy) = (Some (remoteVM "1" true), None)
  /\ Ready (remoteVM "1" true) = true
  /\ returned (Create sm theManager worker) = Returns (Some patchFailure)
  /\ returned (Create sm theManager worker) <> Returns None.
Proof. cbn zeta. repeat split; try reflexivity. discriminate. Qed.

Lemma readiness_rule_witness :
  let script := withCreate (Some (remoteVM "1" false), None) healthy in
  let sm := methods script false None None in
  scopeBuilt sm theManager worker (scopeFor script)
  /\ createAnswer (scopeFor script) = (Some (remoteVM "1" false), None)
  /\ createSpecifics sm (scopeFor script) (Some (remoteVM "1" false)) = None
  /\ returned (Create sm theManager worker)
     = Returns (Some (RequeueAfterError 20000000000%Z)).
Proof.
  cbn zeta. split; [reflexivity|].
  split; [reflexivity|]. split; [reflexivity|].
  exact (proj1 (proj2
           (readiness_rule
              (methods (withCreate (Some (remoteVM "1" false), None) healthy)
                 false None None) theManager worker
              (scopeFor (withCreate (Some (remoteVM "1" false), None)
                           healthy))
              eq_refl))
           (remoteVM "1" false) eq_refl eq_refl).
Defined.

(** C6, a failing patch: the VM is absent and the update is allowed, yet
    [Update] returns the error of [patchMachine], not the requeue
    signal. *)
Lemma Update_on_absent_VM_returns_patch_error :
  let script := withLookup (None, None) healthy in
  let sm := methods script true None (Some patchFailure) in
  firstLookup (scopeFor script) = (None, None)
  /\ updateAllowed sm (scopeFor script) = true
  /\ returned (Update sm theManager worker) = Returns (Some patchFailure)
  /\ returned (Update sm theManager worker)
     <> Returns (Some (RequeueAfterError (20 * time_Second)%Z)).
Proof. cbn zeta. repeat split; try reflexivity. discriminate. Qed.

Lemma Update_on_absent_VM_witness :
  let script := withLookup (None, None) healthy in
  let sm := methods script false None None in
  scopeBuilt sm theManager worker (scopeFor script)
  /\ firstLookup (scopeFor script) = (None, None)
  /\ updateAllowed sm (scopeFor script) = false
  /\ option_map condition (scopeAtExit (Update sm theManager worker))
     = Some (Some {| Kind := Success; Message := "" |})
  /\ option_map vmDerived (scopeAtExit (Update sm theManager worker))
     = Some None
  /\ returned (Update sm theManager worker)
     = Returns (Some (RequeueAfterError 180000000000%Z)).
Proof.
  cbn zeta. split; [reflexivity|].
  split; [reflexivity|]. split; [reflexivity|].
  split; [reflexivity|]. split; [reflexivity|].
  exact (proj2 (proj2
           (Update_on_absent_VM
              (methods (withLookup (None, None) healthy) false None None)
              theManager worker (scopeFor (withLookup (None, None) healthy))
              eq_refl eq_refl)
           eq_refl)).
Defined.

Lemma Update_carries_ResourceVersion_witness :
  let sm := methods healthy false None None in
  scopeBuilt sm theManager worker (scopeFor healthy)
  /\ firstLookup (scopeFor healthy) = (Some (remoteVM "41" true), None)
  /\ ResourceVersion rendered = ""
  /\ forall namespace vm,
       In (UpdateVirtualMachine_call namespace vm)
          (callsMade (Update sm theManager worker)) ->
       ResourceVersion vm = "41".
Proof.
  cbn zeta. split; [reflexivity|]. split; [reflexivity|].
  split; [reflexivity|].
  exact (proj2 (proj2
           (Update_carries_ResourceVersion
              (methods healthy false None None) theManager worker
              (scopeFor healthy) eq_refl (remoteVM "41" true) eq_refl))).
Defined.

(** C9, a failing patch: the lookup fails, yet [Update] returns the error
    of [patchMachine], not the lookup error. *)
Lemma Update_on_lookup_error_returns_patch_error :
  let script := withLookup (None, Some refused) healthy in
  let sm := methods script false None (Some patchFailure) in
  firstLookup (scopeFor script) = (None, Some refused)
  /\ returned (Update sm theManager worker) = Returns (Some patchFailure)
  /\ returned (Update sm theManager worker)
     <> Returns (Some (LibError refused)).
Proof. cbn zeta. repeat split; try reflexivity. discriminate. Qed.

Lemma not_found_is_matched_by_text_witness :
  let script := withLookup (None, Some notFound) healthy in
  let sm := methods script true None None in
  scopeBuilt sm theManager worker (scopeFor script)
  /\ firstLookup (scopeFor script) = (None, Some notFound)
  /\ patchMachine sm [lookupCall (scopeFor script)] (scopeFor script) = None
  /\ returned (Update sm theManager worker)
     = Returns (Some (LibError notFound)).
Proof.
  cbn zeta. split; [reflexivity|].
  split; [reflexivity|]. split; [reflexivity|].
  exact (proj2 (proj1
           (not_found_is_matched_by_text
              (methods (withLookup (None, Some notFound) healthy)
                 true None None) theManager worker
              (scopeFor (withLookup (None, Some notFound) healthy))
              eq_refl None notFound eq_refl)
           eq_refl)).
Defined.

(** [Update] falls back to the updated VM when the second lookup fails:
    with [(nil, nil)] from the update, a nil VM reaches the readiness
    evaluation. *)
Example Update_falls_back_to_nil_VM :
  let script :=
    withRefetch (None, Some refused) (withUpdate (None, None) healthy) in
  let sm := methods script false None None in
  updateAnswer (scopeFor script) (remoteVM "41" true) = (None, None)
  /\ refetchAnswer (scopeFor script) (remoteVM "41" true)
     = (None, Some refused)
  /\ returned (Update sm theManager worker) = Panics.
Proof. cbn zeta. repeat split; reflexivity. Qed.


Lemma New_InvalidConfiguration_cases_witness :
  secretLacksKey (secretsWith ∅) "creds" "cluster-a"
  /\ exists msg,
       fst (New plainLibraries (secretsWith ∅) "creds" "cluster-a" [])
       = Returns (None, Some (InvalidMachineConfiguration msg)).
Proof.
  assert (H : secretLacksKey (secretsWith ∅) "creds" "cluster-a").
  { exists {| Data := ∅ |}. split; reflexivity. }
  split; [exact H|].
  exact (proj1 (proj1 (New_InvalidConfiguration_cases plainLibraries
                         (secretsWith ∅) "creds" "cluster-a" []))
           (or_intror (or_intror (or_intror H)))).
Defined.

(** [New] on the samples: a secret with the key gives a client after the
    five calls, none of them to the VM API. *)
Example New_on_samples :
  New plainLibraries (secretsWith {[ "kubeconfig" := [x41] ]})
    "creds" "cluster-a" []
  = (Returns (Some {| kubevirt.kubevirtClient := tt;
                      kubevirt.kuberentesClient := tt |}, None),
     [UserDataSecret_call "creds" "cluster-a";
      NewClientConfigFromBytes_call [x41];
      GetKubevirtClientFromClientConfig_call;
      BuildConfigFromFlags_call "" "A";
      NewForConfig_call])
  /\ fst (New plainLibraries (secretsWith ∅) "" "cluster-a" [])
     = Returns (None, Some (InvalidMachineConfiguration
         "KubeVirt credentials secret - Invalid empty secretName"))
  /\ fst (New plainLibraries noSecrets "creds" "cluster-a" [])
     = Returns (None, Some (InvalidMachineConfiguration
         ("KubeVirt credentials secret cluster-a/creds: " +:+
          "virtualmachine.kubevirt.io worker-0 not found not found"))).
Proof. repeat split; vm_compute; reflexivity. Qed.

(* ================================================================== *)
(** * Further properties of the actuator *)

Import calls.

(** X1. When the scope cannot be built, each of the four operations
    returns the constructor's error as it is ([Exists] with [false]),
    makes no call at all, and leaves no scope behind. *)
Theorem scope_failure_is_returned
    (sm : scopeMethods) (m : manager) (machine : Machine) (e : error) :
  newMachineScope sm machine (kubernetesClient m) (kubevirtClientBuilder m)
  = inr e ->
  Create sm m machine
    = {| returned := Returns (Some e); callsMade := [];
         scopeAtExit := None |}
  /\ Delete sm m machine
    = {| returned := Returns (Some e); callsMade := [];
         scopeAtExit := None |}
  /\ Update sm m machine
    = {| returned := Returns (Some e); callsMade := [];
         scopeAtExit := None |}
  /\ Exists sm m machine
    = {| returned := Returns (false, Some e); callsMade := [];
         scopeAtExit := None |}.
Proof.
  intros H. unfold Create, Delete, Update, Exists, prepareMachineScope.
  rewrite H. repeat split; reflexivity.
Qed.

(** X2. No operation reaches beyond its own calls on the VM API:
    [Create] only creates, [Delete] only looks up and deletes, [Update]
    only looks up and updates, [Exists] only looks up and does not even
    patch the machine. *)
Theorem operations_keep_to_their_calls
    (sm : scopeMethods) (m : manager) (machine : Machine) :
  Forall (fun c => isCreateCall c || isPatchMachine c = true)
         (callsMade (Create sm m machine))
  /\ Forall (fun c => isGetCall c || isDeleteCall c || isPatchMachine c
                      = true)
            (callsMade (Delete sm m machine))
  /\ Forall (fun c => isGetCall c || isUpdateCall c || isPatchMachine c
                      = true)
            (callsMade (Update sm m machine))
  /\ Forall (fun c => isGetCall c = true)
            (callsMade (Exists sm m machine)).
Proof.
  unfold Create, Delete, Update, Exists, prepareMachineScope.
  destruct (newMachineScope sm machine _ _) as [s|e];
    [|repeat split; constructor].
  repeat split; unfold_operations; cbn;
    repeat (case_answer; cbn); repeat constructor.
Qed.

(** X3. [Delete] and [Exists] never panic: a nil VM from the lookup is
    tested before it is used. *)
Theorem Delete_and_Exists_never_panic
    (sm : scopeMethods) (m : manager) (machine : Machine) :
  returned (Delete sm m machine) <> Panics
  /\ returned (Exists sm m machine) <> Panics.
Proof.
  unfold Delete, Exists, prepareMachineScope.
  destruct (newMachineScope sm machine _ _) as [s|e];
    [|split; discriminate].
  split; unfold_operations; cbn; repeat (case_answer; cbn); discriminate.
Qed.

Section Traces.

Variables (sm : scopeMethods) (m : manager) (machine : Machine).
Variable s : machineScope.
Hypothesis built : scopeBuilt sm m machine s.

(** X4. [Create] makes one call on the VM API, the create of the rendered
    VM in the machine's namespace, and then patches the machine: it does
    not look the VM up first. *)
Theorem Create_creates_without_lookup :
  callsMade (Create sm m machine)
  = [CreateVirtualMachine_call (getMachineNamespace s) (virtualMachine s);
     patchMachine_call].
Proof.
  enter_operation built. repeat (case_answer; cbn); reflexivity.
Qed.

(** X5. [Exists] is read-only: its one call is the lookup of the rendered
    VM's name in the machine's namespace, and the scope is left as it was
    built. *)
Theorem Exists_is_read_only :
  callsMade (Exists sm m machine)
  = [GetVirtualMachine_call (getMachineNamespace s)
       (GetName (virtualMachine s))]
  /\ scopeAtExit (Exists sm m machine) = Some s.
Proof.
  enter_operation built. repeat (case_answer; cbn); split; reflexivity.
Qed.

(** X6. [Delete] looks up, deletes exactly when the lookup gave a VM and
    no error, and patches last; it never touches the scope, so the patch
    writes back the status the scope was built with. *)
Theorem Delete_deletes_only_what_it_found :
  callsMade (Delete sm m machine)
  = match firstLookup s with
    | (Some _, None) =>
        [lookupCall s;
         DeleteVirtualMachine_call (getMachineNamespace s)
           (GetName (virtualMachine s))
           {| GracePeriodSeconds := Some 10%Z |};
         patchMachine_call]
    | _ => [lookupCall s; patchMachine_call]
    end
  /\ scopeAtExit (Delete sm m machine) = Some s.
Proof.
  enter_operation built. repeat (case_answer; cbn); split; reflexivity.
Qed.

(** X7. The calls of [Update], in order: the lookup; the update, only if
    the lookup gave a VM and no error; the second lookup, only if the
    update succeeded and the provider specifics were set; the patch. *)
Theorem Update_calls_in_order :
  callsMade (Update sm m machine)
  = match firstLookup s with
    | (Some existing, None) =>
        match updateAnswer s existing with
        | (updatedVM, None) =>
            match updateSpecifics sm s existing updatedVM with
            | None =>
                [lookupCall s; updateCall s existing; lookupCall s;
                 patchMachine_call]
            | Some _ =>
                [lookupCall s; updateCall s existing; patchMachine_call]
            end
        | (_, Some _) =>
            [lookupCall s; updateCall s existing; patchMachine_call]
        end
    | _ => [lookupCall s; patchMachine_call]
    end.
Proof.
  enter_operation built. repeat (case_answer; cbn); reflexivity.
Qed.

End Traces.

(** ** What the operations leave in the scope *)

Section Status.

Variables (sm : scopeMethods) (m : manager) (machine : Machine).
Variable s : machineScope.
Hypothesis built : scopeBuilt sm m machine s.

(** X8. When the create fails with [e], the one change [Create] makes to
    the scope is [setProviderStatus(nil, c)] with [c] the failed
    condition carrying the text of [e]; if the patch then succeeds,
    [Create] returns [e] wrapped with "failed to create virtual
    machine". *)
Theorem Create_records_the_failure (v : option VirtualMachine)
    (e : libError) :
  createAnswer s = (v, Some e) ->
  scopeAtExit (Create sm m machine)
  = Some (setProviderStatus_scope None
            {| Kind := Kind conditionFailed; Message := Error e |} s)
  /\ (patchSucceeds sm ->
      returned (Create sm m machine)
      = Returns (Some (WrapError "failed to create virtual machine"
                         (LibError e)))).
Proof.
  intros HA. split.
  - enter_operation built. rewrite HA. cbn.
    repeat (case_answer; cbn); reflexivity.
  - intros patched. enter_operation built. rewrite HA. cbn.
    rewrite patched. reflexivity.
Qed.

(** X9. When the create succeeds and the provider specifics are set,
    [Create] leaves the scope with the provider ID and then the status of
    the created VM under the condition Success, whether the VM is ready
    or not. *)
Theorem Create_records_the_created_VM (vm : option VirtualMachine) :
  createAnswer s = (vm, None) ->
  createSpecifics sm s vm = None ->
  scopeAtExit (Create sm m machine)
  = Some (setProviderStatus_scope vm conditionSuccess
            (setProviderID_scope vm s)).
Proof.
  intros HA HS. enter_operation built. rewrite HA. cbn. rewrite HS. cbn.
  repeat (case_answer; cbn); reflexivity.
Qed.

(** X10. When setting the provider specifics fails with [err] after a
    successful create, [Create] has set the provider ID but not the
    status: the condition stays what it was.  If the patch succeeds,
    [Create] returns [err] wrapped with "failed to set machine cloud
    provider specifics". *)
Theorem Create_specifics_failure (vm : option VirtualMachine)
    (err : error) :
  createAnswer s = (vm, None) ->
  createSpecifics sm s vm = Some err ->
  scopeAtExit (Create sm m machine) = Some (setProviderID_scope vm s)
  /\ condition (setProviderID_scope vm s) = condition s
  /\ (patchSucceeds sm ->
      returned (Create sm m machine)
      = Returns (Some (WrapError
                         "failed to set machine cloud provider specifics"
                         err))).
Proof.
  intros HA HS. split; [|split; [reflexivity|]].
  - enter_operation built. rewrite HA. cbn. rewrite HS. cbn.
    repeat (case_answer; cbn); reflexivity.
  - intros patched. enter_operation built. rewrite HA. cbn. rewrite HS. cbn.
    rewrite patched. reflexivity.
Qed.

(** X11. When the update fails with [e], [Update] has changed nothing in
    the scope but the version of the rendered VM, makes no second lookup,
    and, if the patch succeeds, returns [e] wrapped with "failed to
    update VM". *)
Theorem Update_failure_leaves_status (existing : VirtualMachine)
    (updatedVM : option VirtualMachine) (e : libError) :
  firstLookup s = (Some existing, None) ->
  updateAnswer s existing = (updatedVM, Some e) ->
  scopeAtExit (Update sm m machine)
  = Some (setResourceVersion_scope (ResourceVersion existing) s)
  /\ callsMade (Update sm m machine)
     = [lookupCall s; updateCall s existing; patchMachine_call]
  /\ (patchSucceeds sm ->
      returned (Update sm m machine)
      = Returns (Some (WrapError "failed to update VM" (LibError e)))).
Proof.
  intros HL HU. split; [|split].
  - enter_operation built. rewrite HL. cbn. rewrite HU. cbn.
    repeat (case_answer; cbn); reflexivity.
  - enter_operation built. rewrite HL. cbn. rewrite HU. cbn.
    repeat (case_answer; cbn); reflexivity.
  - intros patched. enter_operation built. rewrite HL. cbn. rewrite HU. cbn.
    rewrite patched. reflexivity.
Qed.

(** X12. When the update succeeds and the provider specifics are set,
    the scope [Update] leaves carries the provider ID and the status of
    the VM the update returned, under the condition Success: the VM of
    the second lookup decides the readiness, not the status. *)
Theorem Update_records_the_updated_VM (existing : VirtualMachine)
    (updatedVM : option VirtualMachine) :
  firstLookup s = (Some existing, None) ->
  updateAnswer s existing = (updatedVM, None) ->
  updateSpecifics sm s existing updatedVM = None ->
  scopeAtExit (Update sm m machine)
  = Some (setProviderStatus_scope updatedVM conditionSuccess
            (setProviderID_scope updatedVM
               (setResourceVersion_scope (ResourceVersion existing) s))).
Proof.
  intros HL HU HS. enter_operation built.
  rewrite HL. cbn. rewrite HU. cbn. rewrite HS. cbn.
  repeat (case_answer; cbn); reflexivity.
Qed.

(** X13. A failing second lookup does not fail [Update]: when the update
    returned a VM, the provider specifics were set and the patch
    succeeds, [Update] returns what the readiness of the updated VM
    asks for, whatever error the second lookup gave. *)
Theorem Update_survives_failed_refetch (existing updated : VirtualMachine)
    (g : option VirtualMachine) (e : libError) :
  patchSucceeds sm ->
  firstLookup s = (Some existing, None) ->
  updateAnswer s existing = (Some updated, None) ->
  updateSpecifics sm s existing (Some updated) = None ->
  refetchAnswer s existing = (g, Some e) ->
  returned (Update sm m machine)
  = Returns (if Ready updated then None
             else Some (RequeueAfterError (20 * time_Second)%Z)).
Proof.
  intros patched HL HU HS HR. enter_operation built.
  rewrite HL. cbn. rewrite HU. cbn. rewrite HS. cbn. rewrite HR. cbn.
  destruct (Ready updated); cbn; rewrite patched; reflexivity.
Qed.

(** X14. The requeue signals.  When the patch succeeds, a requeue signal
    returned by [Create] asks for 20 seconds, one returned by [Update]
    for 20 or for 180 seconds, and [Delete] returns none. *)
Theorem requeue_delays (d : Duration) :
  patchSucceeds sm ->
  (returned (Create sm m machine) = Returns (Some (RequeueAfterError d)) ->
   d = (20 * time_Second)%Z)
  /\ (returned (Update sm m machine) = Returns (Some (RequeueAfterError d)) ->
      d = (20 * time_Second)%Z \/ d = (180 * time_Second)%Z)
  /\ returned (Delete sm m machine) <> Returns (Some (RequeueAfterError d)).
Proof.
  intros patched. repeat split; enter_operation built;
    repeat (case_answer; cbn);
    try match goal with
        | E : patchMachine _ _ _ = Some _ |- _ =>
            rewrite patched in E; discriminate E
        end;
    intros H; try discriminate H; injection H as <-; auto.
Qed.

End Status.

(* ================================================================== *)
(** * The query helpers *)

Import vm_queries.

Lemma getRunningFromVms_loop_panics
    (vms runningVms : list (option VirtualMachine)) :
  getRunningFromVms_loop runningVms vms = Panics <-> In None vms.
Proof.
  revert runningVms. induction vms as [|[v|] rest IH]; intros runningVms; cbn.
  - split; [discriminate | contradiction].
  - rewrite IH. split; [auto | intros [H|H]; [discriminate H | exact H]].
  - split; auto.
Qed.

Lemma getRunningFromVms_loop_returns
    (vms runningVms : list (option VirtualMachine)) :
  ~ In None vms ->
  getRunningFromVms_loop runningVms vms
  = Returns (runningVms ++ List.filter isRunning vms).
Proof.
  revert runningVms. induction vms as [|[v|] rest IH]; intros runningVms H; cbn.
  - now rewrite app_nil_r.
  - rewrite IH by (intros H'; apply H; right; exact H').
    destruct (Ready v); [rewrite <- app_assoc|]; reflexivity.
  - exfalso. apply H. left. reflexivity.
Qed.

Lemma filter_isRunning_twice (vms : list (option VirtualMachine)) :
  List.filter isRunning (List.filter isRunning vms)
  = List.filter isRunning vms.
Proof.
  induction vms as [|vm rest IH]; cbn; [reflexivity|].
  destruct (isRunning vm) eqn:E; cbn; rewrite ?E, IH; reflexivity.
Qed.

(** X15. [getRunningFromVms] panics exactly when the list holds a nil
    pointer, wherever it stands and whatever the other VMs are. *)
Theorem getRunningFromVms_panics_on_nil
    (vms : list (option VirtualMachine)) :
  getRunningFromVms vms = Panics <-> In None vms.
Proof. apply getRunningFromVms_loop_panics. Qed.

(** X16. On a list without nil pointers, [getRunningFromVms] returns the
    ready VMs of the list, each as often as it occurs and in the order of
    the list, and no other. *)
Theorem getRunningFromVms_returns_the_ready
    (vms : list (option VirtualMachine)) :
  ~ In None vms ->
  getRunningFromVms vms = Returns (List.filter isRunning vms).
Proof.
  intros H. unfold getRunningFromVms.
  rewrite getRunningFromVms_loop_returns by exact H. reflexivity.
Qed.

(** X17. Whatever [getRunningFromVms] returns holds only ready VMs of
    the input, is no longer than the input, and is returned unchanged
    when handed to [getRunningFromVms] again. *)
Theorem getRunningFromVms_result
    (vms running : list (option VirtualMachine)) :
  getRunningFromVms vms = Returns running ->
  (forall vm, In vm running <-> In vm vms /\ isRunning vm = true)
  /\ length running <= length vms
  /\ getRunningFromVms running = Returns running.
Proof.
  intros H.
  assert (Hnil : ~ In None vms).
  { intros Hin. apply getRunningFromVms_loop_panics with (runningVms := [])
      in Hin. unfold getRunningFromVms in H. congruence. }
  unfold getRunningFromVms in *.
  rewrite getRunningFromVms_loop_returns in H by exact Hnil.
  cbn in H. injection H as <-.
  split; [|split].
  - intros vm. apply List.filter_In.
  - apply List.filter_length_le.
  - rewrite getRunningFromVms_loop_returns.
    + cbn. now rewrite filter_isRunning_twice.
    + intros Hin. apply List.filter_In in Hin as [_ Hin]. discriminate Hin.
Qed.

(* ================================================================== *)
(** * Further properties of the client builder *)

Section Builder.

Context {ClientConfig KubevirtClient RestConfig Clientset : Type}.
Variable libs : Libraries ClientConfig KubevirtClient RestConfig Clientset.
Variable k : kubernetesclient_Client.
Variables secretName namespace : string.
Variable before : list Call.

Ltac enter_New :=
  unfold New, perform, bind, ret, panic;
  repeat match goal with
         | H : _ <> "" |- _ => apply String.eqb_neq in H; rewrite H
         end; cbn.

Ltac case_New :=
  match goal with
  | |- context [String.eqb ?a ?b] => destruct (String.eqb a b) eqn:?
  | |- context [UserDataSecret ?k ?a ?b] =>
      destruct (UserDataSecret k a b) as [[?|] [?|]] eqn:?
  | |- context [IsNotFound ?e] => destruct (IsNotFound e) eqn:?
  | |- context [Data ?s !! ?key] => destruct (Data s !! key) eqn:?
  | |- context [NewClientConfigFromBytes ?l ?b] =>
      destruct (NewClientConfigFromBytes l b) as [? [?|]] eqn:?
  | |- context [GetKubevirtClientFromClientConfig ?l ?b] =>
      destruct (GetKubevirtClientFromClientConfig l b) as [? [?|]] eqn:?
  | |- context [BuildConfigFromFlags ?l ?a ?b] =>
      destruct (BuildConfigFromFlags l a b) as [? [?|]] eqn:?
  | |- context [NewForConfig ?l ?b] =>
      destruct (NewForConfig l b) as [? [?|]] eqn:?
  end.

(** X18. When the secret holds a kubeconfig and every constructor
    succeeds, [New] returns the wrapper of the two clients built and no
    error, after five calls in this order; the bytes of the kubeconfig
    are handed to [BuildConfigFromFlags] as its path argument. *)
Theorem New_builds_the_client (secret : Secret) (bytes : list byte)
    (cfg : ClientConfig) (kc : KubevirtClient) (rc : RestConfig)
    (cs : Clientset) :
  secretName <> "" -> namespace <> "" ->
  UserDataSecret k secretName namespace = (Some secret, None) ->
  Data secret !! underKubeConfig = Some bytes ->
  NewClientConfigFromBytes libs bytes = (cfg, None) ->
  GetKubevirtClientFromClientConfig libs cfg = (kc, None) ->
  BuildConfigFromFlags libs "" (string_of_list_byte bytes) = (rc, None) ->
  NewForConfig libs rc = (cs, None) ->
  New libs k secretName namespace before
  = (Returns (Some {| kubevirt.kubevirtClient := kc;
                      kubevirt.kuberentesClient := cs |}, None),
     before ++ [UserDataSecret_call secretName namespace;
                NewClientConfigFromBytes_call bytes;
                GetKubevirtClientFromClientConfig_call;
                BuildConfigFromFlags_call "" (string_of_list_byte bytes);
                NewForConfig_call]).
Proof.
  intros H1 H2 HU HK HC HG HB HN. enter_New.
  rewrite HU. cbn. rewrite HK. cbn. rewrite HC. cbn. rewrite HG. cbn.
  rewrite HB. cbn. rewrite HN. cbn.
  now rewrite <- !app_assoc.
Qed.

(** X19. On every path [New] makes at most five calls, none of them to
    the VM API and none a status patch; it makes no call at all when the
    secret name or the namespace is empty, and otherwise its first call
    is the lookup of the secret. *)
Theorem New_calls (made : list Call) :
  snd (New libs k secretName namespace before) = made ->
  exists calls,
    made = before ++ calls
    /\ length calls <= 5
    /\ Forall (fun c => isVMAPICall c = false /\ isPatchMachine c = false)
         calls
    /\ if String.eqb secretName "" || String.eqb namespace ""
       then calls = []
       else exists rest,
              calls = UserDataSecret_call secretName namespace :: rest.
Proof.
  intros <-. unfold New, perform, bind, ret, panic.
  repeat (case_New; cbn); rewrite <- ?app_assoc; cbn;
    (eexists; split;
       [first [reflexivity | symmetry; apply app_nil_r]|]);
    (split; [cbn; lia|]);
    (split; [repeat constructor|]);
    first [reflexivity | eexists; reflexivity].
Qed.

(** X20. [New] panics exactly when the secret name and the namespace are
    not empty and the lookup of the secret gives neither a secret nor an
    error. *)
Theorem New_panics_on_nil_secret :
  fst (New libs k secretName namespace before) = Panics
  <-> secretName <> "" /\ namespace <> ""
      /\ UserDataSecret k secretName namespace = (None, None).
Proof.
  split.
  - unfold New, perform, bind, ret, panic.
    repeat (case_New; cbn); intros H; try discriminate H.
    repeat split; try (apply String.eqb_neq; assumption).
  - intros (H1 & H2 & HU). enter_New. rewrite HU. reflexivity.
Qed.

(** X21. An error of the secret lookup that is not a not-found error is
    returned as it is, and nothing is called after the lookup. *)
Theorem New_returns_lookup_error_unchanged
    (v : option Secret) (e : libError) :
  secretName <> "" -> namespace <> "" ->
  UserDataSecret k secretName namespace = (v, Some e) ->
  IsNotFound e = false ->
  New libs k secretName namespace before
  = (Returns (None, Some (LibError e)),
     before ++ [UserDataSecret_call secretName namespace]).
Proof.
  intros H1 H2 HU HN. enter_New. rewrite HU. cbn. rewrite HN. reflexivity.
Qed.

(** X22. Whenever [New] returns, it returns a client or an error and not
    both; the error is an InvalidConfiguration error made by [New] or a
    library's error passed on as it is, never a wrapped error and never
    a requeue signal. *)
Theorem New_returns_client_or_error
    (c : option (client KubevirtClient Clientset)) (e : option error) :
  fst (New libs k secretName namespace before) = Returns (c, e) ->
  (c = None <-> e <> None)
  /\ match e with
     | Some (MachineError reason _) =>
         reason = InvalidConfigurationMachineError
     | Some (LibError _) | None => True
     | Some (WrapError _ _) | Some (RequeueAfterError _) => False
     end.
Proof.
  unfold New, perform, bind, ret, panic.
  repeat (case_New; cbn); intros H; try discriminate H;
    injection H as <- <-;
    (split; [split; intros H; first [discriminate H | reflexivity
                                     | intros H'; discriminate H'
                                     | exfalso; apply H; reflexivity]
            | exact I || reflexivity]).
Qed.

End Builder.

(* ================================================================== *)
(** * The service methods *)

Import services.

Lemma append_cancel_l (p a b : string) : p +:+ a = p +:+ b -> a = b.
Proof.
  induction p as [|ch p IH]; intros H.
  - exact H.
  - change (String ch (p +:+ a) = String ch (p +:+ b)) in H.
    injection H as H. exact (IH H).
Qed.

Lemma worker_name_injective (a b : string) :
  Sprint servicePrefixName a = Sprint servicePrefixName b -> a = b.
Proof. unfold Sprint. apply append_cancel_l. Qed.

(** X23. [DeleteService] for a VM deletes, in the namespace given, the
    service that [CreateService] for that VM creates there: the service
    is named "worker-" followed by the VM's name, selects on that same
    value under the key "name", and has an empty cluster IP. *)
Theorem DeleteService_targets_the_created_service
    {KubevirtClient : Type} (c : client KubevirtClient Clientset)
    (vmName namespace : string) (options : option DeleteOptions)
    (made : list ServiceCall) :
  exists service,
    snd (DeleteService c vmName namespace options
           (snd (CreateService c vmName namespace made)))
    = made ++ [Services_Create_call namespace service;
               Services_Delete_call namespace (Service_Name service)
                 options]
    /\ Service_Name service = "worker-" +:+ vmName
    /\ Selector (Spec service) = {[ "name" := Service_Name service ]}
    /\ ClusterIP (Spec service) = "".
Proof.
  exists {| Service_Name := Sprint servicePrefixName vmName;
            Spec := {| ClusterIP := "";
                       Selector := {[ "name" := "worker-" +:+ vmName ]} |} |}.
  split; [|repeat split].
  unfold DeleteService, CreateService. cbn. rewrite <- app_assoc.
  reflexivity.
Qed.

(** X24. Different VMs never share a service: the services created for
    two VMs with different names have different names, and deleting the
    service of one does not name the service of the other. *)
Theorem services_do_not_collide
    {KubevirtClient : Type} (c : client KubevirtClient Clientset)
    (vm1 vm2 ns1 ns2 : string) (options : option DeleteOptions)
    (created deleted : Service) (name : string) (o : option DeleteOptions) :
  vm1 <> vm2 ->
  snd (CreateService c vm1 ns1 []) = [Services_Create_call ns1 created] ->
  snd (CreateService c vm2 ns2 []) = [Services_Create_call ns2 deleted] ->
  snd (DeleteService c vm2 ns2 options []) = [Services_Delete_call ns2 name o] ->
  Service_Name created <> Service_Name deleted
  /\ name <> Service_Name created.
Proof.
  unfold CreateService, DeleteService. cbn.
  intros Hne [= <-] [= <-] [= <- <-]. cbn.
  split; intros H; apply Hne; [|symmetry];
    apply worker_name_injective; exact H.
Qed.

(* ================================================================== *)
(** * The further properties on the sample surroundings *)

Lemma scope_failure_is_returned_witness :
  let e := InvalidMachineConfiguration
             "KubeVirt credentials secret - Invalid empty secretName" in
  newMachineScope misconfigured worker (kubernetesClient theManager)
    (kubevirtClientBuilder theManager) = inr e
  /\ returned (Exists misconfigured theManager worker)
     = Returns (false, Some e).
Proof.
  cbn zeta. split; [reflexivity|].
  exact (f_equal returned
           (proj2 (proj2 (proj2
              (scope_failure_is_returned misconfigured theManager worker
                 _ eq_refl))))).
Defined.

Lemma Create_creates_without_lookup_witness :
  let sm := methods healthy false None None in
  scopeBuilt sm theManager worker (scopeFor healthy)
  /\ callsMade (Create sm theManager worker)
     = [CreateVirtualMachine_call "cluster-a" rendered; patchMachine_call].
Proof.
  cbn zeta. split; [reflexivity|].
  exact (Create_creates_without_lookup (methods healthy false None None)
           theManager worker (scopeFor healthy) eq_refl).
Defined.

Lemma Exists_is_read_only_witness :
  let sm := methods healthy false None None in
  scopeBuilt sm theManager worker (scopeFor healthy)
  /\ callsMade (Exists sm theManager worker)
     = [GetVirtualMachine_call "cluster-a" "worker-0"]
  /\ scopeAtExit (Exists sm theManager worker) = Some (scopeFor healthy).
Proof.
  cbn zeta. split; [reflexivity|].
  exact (Exists_is_read_only (methods healthy false None None)
           theManager worker (scopeFor healthy) eq_refl).
Defined.

Lemma Delete_deletes_only_what_it_found_witness :
  let sm := methods healthy false None None in
  scopeBuilt sm theManager worker (scopeFor healthy)
  /\ callsMade (Delete sm theManager worker)
     = [GetVirtualMachine_call "cluster-a" "worker-0";
        DeleteVirtualMachine_call "cluster-a" "worker-0"
          {| GracePeriodSeconds := Some 10%Z |};
        patchMachine_call]
  /\ scopeAtExit (Delete sm theManager worker) = Some (scopeFor healthy).
Proof.
  cbn zeta. split; [reflexivity|].
  exact (Delete_deletes_only_what_it_found
           (methods healthy false None None)
           theManager worker (scopeFor healthy) eq_refl).
Defined.

Lemma Update_calls_in_order_witness :
  let sm := methods healthy false None None in
  scopeBuilt sm theManager worker (scopeFor healthy)
  /\ callsMade (Update sm theManager worker)
     = [GetVirtualMachine_call "cluster-a" "worker-0";
        UpdateVirtualMachine_call "cluster-a"
          {| Name := "worker-0"; Namespace := "cluster-a";
             ResourceVersion := "41"; Ready := false |};
        GetVirtualMachine_call "cluster-a" "worker-0";
        patchMachine_call].
Proof.
  cbn zeta. split; [reflexivity|].
  exact (Update_calls_in_order (methods healthy false None None)
           theManager worker (scopeFor healthy) eq_refl).
Defined.

Lemma Create_records_the_failure_witness :
  let script := withCreate (None, Some refused) healthy in
  let sm := methods script false None (Some patchFailure) in
  scopeBuilt sm theManager worker (scopeFor script)
  /\ createAnswer (scopeFor script) = (None, Some refused)
  /\ option_map condition (scopeAtExit (Create sm theManager worker))
     = Some (Some {| Kind := Failed; Message := Error refused |}).
Proof.
  cbn zeta. split; [reflexivity|]. split; [reflexivity|].
  exact (f_equal (option_map condition)
           (proj1 (Create_records_the_failure
                     (methods (withCreate (None, Some refused) healthy)
                        false None (Some patchFailure))
                     theManager worker
                     (scopeFor (withCreate (None, Some refused) healthy))
                     eq_refl None refused eq_refl))).
Defined.

Lemma Create_records_the_created_VM_witness :
  let script := withCreate (Some (remoteVM "1" false), None) healthy in
  let sm := methods script false None None in
  scopeBuilt sm theManager worker (scopeFor script)
  /\ createAnswer (scopeFor script) = (Some (remoteVM "1" false), None)
  /\ createSpecifics sm (scopeFor script) (Some (remoteVM "1" false)) = None
  /\ option_map vmDerived (scopeAtExit (Create sm theManager worker))
     = Some (Some (remoteVM "1" false)).
Proof.
  cbn zeta. split; [reflexivity|]. split; [reflexivity|].
  split; [reflexivity|].
  exact (f_equal (option_map vmDerived)
           (Create_records_the_created_VM
              (methods (withCreate (Some (remoteVM "1" false), None) healthy)
                 false None None)
              theManager worker
              (scopeFor (withCreate (Some (remoteVM "1" false), None)
                           healthy))
              eq_refl (Some (remoteVM "1" false)) eq_refl eq_refl)).
Defined.

Lemma Create_specifics_failure_witness :
  let sm := methods healthy false (Some patchFailure) None in
  scopeBuilt sm theManager worker (scopeFor healthy)
  /\ patchSucceeds sm
  /\ createAnswer (scopeFor healthy) = (Some (remoteVM "1" true), None)
  /\ createSpecifics sm (scopeFor healthy) (Some (remoteVM "1" true))
     = Some patchFailure
  /\ returned (Create sm theManager worker)
     = Returns (Some (WrapError
                        "failed to set machine cloud provider specifics"
                        patchFailure)).
Proof.
  cbn zeta. split; [reflexivity|]. split; [intros ? ?; reflexivity|].
  split; [reflexivity|]. split; [reflexivity|].
  exact (proj2 (proj2
           (Create_specifics_failure
              (methods healthy false (Some patchFailure) None)
              theManager worker (scopeFor healthy) eq_refl
              (Some (remoteVM "1" true)) patchFailure eq_refl eq_refl))
           (fun _ _ => eq_refl)).
Defined.

Lemma Update_failure_leaves_status_witness :
  let script := withUpdate (None, Some conflict) healthy in
  let sm := methods script false None None in
  scopeBuilt sm theManager worker (scopeFor script)
  /\ patchSucceeds sm
  /\ firstLookup (scopeFor script) = (Some (remoteVM "41" true), None)
  /\ updateAnswer (scopeFor script) (remoteVM "41" true)
     = (None, Some conflict)
  /\ returned (Update sm theManager worker)
     = Returns (Some (WrapError "failed to update VM" (LibError conflict))).
Proof.
  cbn zeta. split; [reflexivity|]. split; [intros ? ?; reflexivity|].
  split; [reflexivity|]. split; [reflexivity|].
  exact (proj2 (proj2
           (Update_failure_leaves_status
              (methods (withUpdate (None, Some conflict) healthy)
                 false None None)
              theManager worker
              (scopeFor (withUpdate (None, Some conflict) healthy)) eq_refl
              (remoteVM "41" true) None conflict eq_refl eq_refl))
           (fun _ _ => eq_refl)).
Defined.

Lemma Update_records_the_updated_VM_witness :
  let sm := methods healthy false None None in
  scopeBuilt sm theManager worker (scopeFor healthy)
  /\ firstLookup (scopeFor healthy) = (Some (remoteVM "41" true), None)
  /\ updateAnswer (scopeFor healthy) (remoteVM "41" true)
     = (Some (remoteVM "42" true), None)
  /\ updateSpecifics sm (scopeFor healthy) (remoteVM "41" true)
       (Some (remoteVM "42" true)) = None
  /\ option_map vmDerived (scopeAtExit (Update sm theManager worker))
     = Some (Some (remoteVM "42" true)).
Proof.
  cbn zeta. split; [reflexivity|]. split; [reflexivity|].
  split; [reflexivity|]. split; [reflexivity|].
  exact (f_equal (option_map vmDerived)
           (Update_records_the_updated_VM
              (methods healthy false None None) theManager worker
              (scopeFor healthy) eq_refl (remoteVM "41" true)
              (Some (remoteVM "42" true)) eq_refl eq_refl eq_refl)).
Defined.

Lemma Update_survives_failed_refetch_witness :
  let script := withRefetch (None, Some refused) healthy in
  let sm := methods script false None None in
  scopeBuilt sm theManager worker (scopeFor script)
  /\ patchSucceeds sm
  /\ refetchAnswer (scopeFor script) (remoteVM "41" true)
     = (None, Some refused)
  /\ returned (Update sm theManager worker) = Returns None.
Proof.
  cbn zeta. split; [reflexivity|]. split; [intros ? ?; reflexivity|].
  split; [reflexivity|].
  exact (Update_survives_failed_refetch
           (methods (withRefetch (None, Some refused) healthy)
              false None None)
           theManager worker
           (scopeFor (withRefetch (None, Some refused) healthy)) eq_refl
           (remoteVM "41" true) (remoteVM "42" true) None refused
           (fun _ _ => eq_refl) eq_refl eq_refl eq_refl eq_refl).
Defined.

Lemma requeue_delays_witness :
  let script := withLookup (None, None) healthy in
  let sm := methods script false None None in
  scopeBuilt sm theManager worker (scopeFor script)
  /\ patchSucceeds sm
  /\ returned (Update sm theManager worker)
     = Returns (Some (RequeueAfterError 180000000000%Z))
  /\ (180000000000 = 20 * time_Second \/ 180000000000 = 180 * time_Second)%Z.
Proof.
  cbn zeta. split; [reflexivity|]. split; [intros ? ?; reflexivity|].
  split; [reflexivity|].
  exact (proj1 (proj2
           (requeue_delays
              (methods (withLookup (None, None) healthy) false None None)
              theManager worker (scopeFor (withLookup (None, None) healthy))
              eq_refl 180000000000%Z (fun _ _ => eq_refl)))
           eq_refl).
Defined.

Lemma getRunningFromVms_panics_on_nil_witness :
  In None [Some (remoteVM "1" true); None]
  /\ getRunningFromVms [Some (remoteVM "1" true); None] = Panics.
Proof.
  assert (H : In (@None VirtualMachine) [Some (remoteVM "1" true); None])
    by (right; left; reflexivity).
  split; [exact H|].
  exact (proj2 (getRunningFromVms_panics_on_nil _) H).
Defined.

Lemma getRunningFromVms_returns_the_ready_witness :
  let vms := [Some (remoteVM "1" true); Some (remoteVM "2" false);
              Some (remoteVM "3" true)] in
  ~ In None vms
  /\ getRunningFromVms vms
     = Returns [Some (remoteVM "1" true); Some (remoteVM "3" true)].
Proof.
  cbn zeta.
  assert (H : ~ In None [Some (remoteVM "1" true); Some (remoteVM "2" false);
                         Some (remoteVM "3" true)]).
  { intros [H|[H|[H|[]]]]; discriminate H. }
  split; [exact H|].
  exact (getRunningFromVms_returns_the_ready _ H).
Defined.

Lemma getRunningFromVms_result_witness :
  let vms := [Some (remoteVM "1" false); Some (remoteVM "2" true)] in
  getRunningFromVms vms = Returns [Some (remoteVM "2" true)]
  /\ getRunningFromVms [Some (remoteVM "2" true)]
     = Returns [Some (remoteVM "2" true)].
Proof.
  cbn zeta. split; [reflexivity|].
  exact (proj2 (proj2
           (getRunningFromVms_result
              [Some (remoteVM "1" false); Some (remoteVM "2" true)]
              [Some (remoteVM "2" true)] eq_refl))).
Defined.

Lemma New_builds_the_client_witness :
  let store := secretsWith {[ "kubeconfig" := [x41] ]} in
  UserDataSecret store "creds" "cluster-a"
  = (Some {| Data := {[ "kubeconfig" := [x41] ]} |}, None)
  /\ fst (New plainLibraries store "creds" "cluster-a" [])
     = Returns (Some {| kubevirt.kubevirtClient := tt;
                        kubevirt.kuberentesClient := tt |}, None).
Proof.
  cbn zeta. split; [reflexivity|].
  refine (f_equal fst
            (New_builds_the_client plainLibraries
               (secretsWith {[ "kubeconfig" := [x41] ]})
               "creds" "cluster-a" []
               {| Data := {[ "kubeconfig" := [x41] ]} |} [x41] tt tt tt tt
               _ _ eq_refl eq_refl eq_refl eq_refl eq_refl eq_refl));
    discriminate.
Defined.

Lemma New_calls_witness :
  exists calls,
    snd (New plainLibraries noSecrets "creds" "cluster-a" []) = [] ++ calls
    /\ length calls <= 5.
Proof.
  destruct (New_calls plainLibraries noSecrets "creds" "cluster-a" []
              _ eq_refl) as (calls & H1 & H2 & _).
  exists calls. split; assumption.
Defined.

Lemma New_panics_on_nil_secret_witness :
  let nothing := {| UserDataSecret := fun _ _ => (None, None) |} in
  UserDataSecret nothing "creds" "cluster-a" = (None, None)
  /\ fst (New plainLibraries nothing "creds" "cluster-a" []) = Panics.
Proof.
  cbn zeta. split; [reflexivity|].
  refine (proj2 (New_panics_on_nil_secret plainLibraries
                   {| UserDataSecret := fun _ _ => (None, None) |}
                   "creds" "cluster-a" [])
            (conj _ (conj _ eq_refl))); discriminate.
Defined.

Lemma New_returns_lookup_error_unchanged_witness :
  let failing := {| UserDataSecret := fun _ _ => (None, Some refused) |} in
  UserDataSecret failing "creds" "cluster-a" = (None, Some refused)
  /\ IsNotFound refused = false
  /\ New plainLibraries failing "creds" "cluster-a" []
     = (Returns (None, Some (LibError refused)),
        [UserDataSecret_call "creds" "cluster-a"]).
Proof.
  cbn zeta. split; [reflexivity|]. split; [reflexivity|].
  refine (New_returns_lookup_error_unchanged plainLibraries
            {| UserDataSecret := fun _ _ => (None, Some refused) |}
            "creds" "cluster-a" [] None refused _ _ eq_refl eq_refl);
    discriminate.
Defined.

Lemma New_returns_client_or_error_witness :
  fst (New plainLibraries noSecrets "creds" "cluster-a" [])
  = Returns (None, Some (InvalidMachineConfiguration
      ("KubeVirt credentials secret cluster-a/creds: " +:+
       "virtualmachine.kubevirt.io worker-0 not found not found")))
  /\ (@None (client unit unit) = None
      <-> Some (InvalidMachineConfiguration
            ("KubeVirt credentials secret cluster-a/creds: " +:+
             "virtualmachine.kubevirt.io worker-0 not found not found"))
          <> None).
Proof.
  split; [reflexivity|].
  exact (proj1 (New_returns_client_or_error plainLibraries noSecrets
                  "creds" "cluster-a" [] None _ eq_refl)).
Defined.

Lemma services_do_not_collide_witness :
  "worker-0" <> "worker-1"
  /\ Service_Name
       {| Service_Name := "worker-worker-0";
          Spec := {| ClusterIP := "";
                     Selector := {[ "name" := "worker-worker-0" ]} |} |}
     <> Service_Name
          {| Service_Name := "worker-worker-1";
             Spec := {| ClusterIP := "";
                        Selector := {[ "name" := "worker-worker-1" ]} |} |}.
Proof.
  assert (H : "worker-0" <> "worker-1") by discriminate.
  split; [exact H|].
  exact (proj1 (services_do_not_collide obliging "worker-0" "worker-1"
                  "cluster-a" "cluster-a" None _ _ _ _ H
                  eq_refl eq_refl eq_refl)).
Defined.
